(** * Resume analyzer backend: a shallow embedding of [src/server.js]

    The server is one Express route, [POST /analyze], behind a multer upload
    middleware.  The route extracts the text of an uploaded PDF, sends it to a
    generative model together with a fixed output schema, parses the JSON text
    of the answer and relays it.

    The embedding follows the file top to bottom:
    - [Js]: the JavaScript values, strings and errors the route manipulates;
    - [Multer] and [Express]: the documented behaviour of the two middleware
      pieces the route is mounted on (upload parsing, default error handler);
    - [Server]: the constants and the handler of [server.js], written in a
      small state-and-exception monad that records every collaborator call. *)

From Stdlib Require Import List String Ascii Strings.Byte NArith ZArith Bool Lia.
From Stdlib Require Import Floats.SpecFloat.
Import ListNotations.

Set Implicit Arguments.
Set Warnings "-register-all".

(** ** JavaScript data *)

Module Js.

(** A JavaScript string is a sequence of UTF-16 code units. *)
Definition jsstring := list N.

(** String literals of the source are ASCII; [js] turns one into code units. *)
Definition js (s : string) : jsstring :=
  map (fun a => N_of_ascii a) (list_ascii_of_string s).

Fixpoint str_eqb (a b : jsstring) : bool :=
  match a, b with
  | [], [] => true
  | x :: a', y :: b' => N.eqb x y && str_eqb a' b'
  | _, _ => false
  end.

(** Code units removed by [String.prototype.trim]: the WhiteSpace and
    LineTerminator productions of ECMAScript (TAB, VT, FF, SP, NBSP, ZWNBSP,
    the Unicode space separators, LF, CR, LS, PS). *)
Definition isTrimmable (c : N) : bool :=
  ((9 <=? c) && (c <=? 13) || (c =? 32) || (c =? 160) || (c =? 5760)
   || (8192 <=? c) && (c <=? 8202) || (c =? 8232) || (c =? 8233)
   || (c =? 8239) || (c =? 8287) || (c =? 12288) || (c =? 65279))%N.

Fixpoint trimStart (s : jsstring) : jsstring :=
  match s with
  | [] => []
  | c :: r => if isTrimmable c then trimStart r else s
  end.

Definition trimEnd (s : jsstring) : jsstring := rev (trimStart (rev s)).

Definition trim (s : jsstring) : jsstring := trimEnd (trimStart s).

(** JavaScript values, as far as plain data goes.  Numbers are IEEE 754
    binary64 values; objects keep their properties in insertion order. *)
Inductive value : Type :=
| VUndefined
| VNull
| VBool (b : bool)
| VNumber (x : spec_float)
| VString (s : jsstring)
| VArray (items : list value)
| VObject (props : list (jsstring * value)).

(** ToBoolean. *)
Definition truthy (v : value) : bool :=
  match v with
  | VUndefined | VNull => false
  | VBool b => b
  | VNumber (S754_zero _) | VNumber S754_nan => false
  | VNumber _ => true
  | VString s => negb (str_eqb s [])
  | VArray _ | VObject _ => true
  end.

(** [a || b]. *)
Definition or_else (a b : value) : value := if truthy a then a else b.

Fixpoint lookup (k : jsstring) (props : list (jsstring * value)) : option value :=
  match props with
  | [] => None
  | (k', v) :: rest => if str_eqb k k' then Some v else lookup k rest
  end.

(** An error object: its [name] and [message], and the [status] and
    [statusCode] properties when it carries them. *)
Record error : Type := mkError {
  e_name : jsstring;
  e_message : jsstring;
  e_status : option Z;
  e_statusCode : option Z
}.

(** [new Error(msg)]. *)
Definition Error (msg : jsstring) : error := mkError (js "Error") msg None None.

(** A TypeError raised by the engine (messages as V8 words them). *)
Definition TypeError (msg : jsstring) : error := mkError (js "TypeError") msg None None.

(** The result of evaluating something that may throw or reject. *)
Inductive Outcome (A : Type) : Type :=
| Returned (a : A)
| Thrown (e : error).
Arguments Thrown {A} e.

(** Member access [v.k] for a property name that is not an own property of
    strings or arrays (such as [text]): it throws on [undefined] and [null],
    reads the property of an object, and is [undefined] on anything else. *)
Definition getProp (v : value) (k : jsstring) : Outcome value :=
  match v with
  | VUndefined =>
      Thrown (TypeError (js "Cannot read properties of undefined (reading '" ++ k ++ js "')"))
  | VNull =>
      Thrown (TypeError (js "Cannot read properties of null (reading '" ++ k ++ js "')"))
  | VObject props =>
      Returned (match lookup k props with Some x => x | None => VUndefined end)
  | _ => Returned VUndefined
  end.

(** The method call [v.trim()]: only strings have the method. *)
Definition callTrim (v : value) : Outcome jsstring :=
  match v with
  | VString s => Returned (trim s)
  | VUndefined =>
      Thrown (TypeError (js "Cannot read properties of undefined (reading 'trim')"))
  | VNull =>
      Thrown (TypeError (js "Cannot read properties of null (reading 'trim')"))
  | _ => Thrown (TypeError (js "(intermediate value).trim is not a function"))
  end.

(** Does object [v] have own property [k]?  ([false] on non-objects.) *)
Definition hasKey (k : jsstring) (v : value) : bool :=
  match v with
  | VObject props => match lookup k props with Some _ => true | None => false end
  | _ => false
  end.

End Js.
Import Js.

(** ** HTTP responses *)

(** What the client receives: a JSON document written by [res.json], or the
    HTML error page of the framework (whose text, a stack trace or a status
    phrase depending on the environment, is left out). *)
Inductive Body : Type :=
| BodyJson (v : value)
| BodyHtml.

Record Response : Type := mkResponse {
  res_status : Z;
  res_body : Body
}.

(** [res.status(code).json(obj)]. *)
Definition status_json (code : Z) (obj : value) : Response :=
  mkResponse code (BodyJson obj).

(** The JSON body has own property [k]. *)
Definition bodyHasKey (k : jsstring) (r : Response) : bool :=
  match res_body r with
  | BodyJson v => hasKey k v
  | BodyHtml => false
  end.

(** The property [k] of the JSON body, when there is one. *)
Definition bodyField (k : jsstring) (r : Response) : option value :=
  match res_body r with
  | BodyJson (VObject props) => lookup k props
  | _ => None
  end.

(** ** The upload middleware (multer, memory storage) *)

Module Multer.

(** A file part, as the multipart parser reports it to the middleware: the
    name of the form field and the filename, when the part has them; the MIME
    type parsed from the part's content type (in lower case, without its
    parameters); and the content. *)
Record FilePart : Type := mkFilePart {
  part_fieldname : option jsstring;
  part_filename : option jsstring;
  part_mimetype : jsstring;
  part_content : list byte
}.

(** A text field, as the parser reports it: its name, when it has one, and
    whether the parser cut the name or the value off at its limits
    ([server.js] sets none for fields, so the parser's defaults apply).  The
    value goes to [req.body], which the route never reads. *)
Record Field : Type := mkField {
  field_name : option jsstring;
  nameTruncated : bool;
  valueTruncated : bool
}.

(** What parsing a multipart body yields, in order: file parts, text fields,
    and the parser giving up on a body it cannot read (a plain [Error] with
    the parser's message). *)
Inductive Event : Type :=
| OnFile (p : FilePart)
| OnField (fd : Field)
| OnError (msg : jsstring).

(** A request to the route: whether the middleware takes it for a multipart
    upload (a multipart content type and a body), and what parsing its body
    yields. *)
Record Request : Type := mkRequest {
  req_multipart : bool;
  req_events : list Event
}.

(** [req.file] as memory storage fills it in. *)
Record File : Type := mkFile {
  fieldname : jsstring;
  originalname : jsstring;
  mimetype : jsstring;
  buffer : list byte;
  size : N
}.

(** The options object given to [multer(...)]. *)
Record Options : Type := mkOptions {
  limits_fileSize : N;
  fileFilter : FilePart -> Outcome bool
}.

Inductive Code : Type :=
| LIMIT_FILE_SIZE
| LIMIT_UNEXPECTED_FILE
| LIMIT_FIELD_KEY
| LIMIT_FIELD_VALUE
| MISSING_FIELD_NAME.

(** [new MulterError(code)]: a plain error with the message of the code. *)
Definition MulterError (c : Code) : error :=
  mkError (js "MulterError")
    (match c with
     | LIMIT_FILE_SIZE => js "File too large"
     | LIMIT_UNEXPECTED_FILE => js "Unexpected field"
     | LIMIT_FIELD_KEY => js "Field name too long"
     | LIMIT_FIELD_VALUE => js "Field value too long"
     | MISSING_FIELD_NAME => js "Field name missing"
     end) None None.

(** The filename of a file part, when it is a non-empty string. *)
Definition filenameOf (p : FilePart) : option jsstring :=
  match part_filename p with
  | Some (c :: s) => Some (c :: s)
  | Some [] | None => None
  end.

(** A part the middleware treats as an uploaded file. *)
Definition isNamedFile (ev : Event) : bool :=
  match ev with
  | OnFile p => match filenameOf p with Some _ => true | None => false end
  | OnField _ | OnError _ => false
  end.

(** What the middleware passes over without touching [req.file]: a named
    text field that was not cut off, and a file part without a filename (a
    file input left empty). *)
Definition passedOver (ev : Event) : bool :=
  match ev with
  | OnFile p => match filenameOf p with Some _ => false | None => true end
  | OnField fd =>
      match field_name fd with
      | Some _ => negb (nameTruncated fd) && negb (valueTruncated fd)
      | None => false
      end
  | OnError _ => false
  end.

Section Single.

(** The multipart parser cuts a file off at [limits.fileSize] bytes; whether
    a file of exactly that many bytes already counts as cut off differs
    between releases of the parser, so it is a parameter. *)
Variable cutAtLimit : bool.
Variable opts : Options.
Variable name : jsstring.

Definition tooLarge (n : N) : bool :=
  (limits_fileSize opts <? n)%N || (cutAtLimit && (n =? limits_fileSize opts)%N).

(** A file part comes under the field [name]. *)
Definition underName (p : FilePart) : bool :=
  match part_fieldname p with
  | Some n => str_eqb n name
  | None => false
  end.

(** The events are taken in order.  [left] is the number of files still
    allowed under [name]; [got] is [req.file] so far.  A file part without a
    filename is skipped before anything else is looked at.  The first error
    ends the upload and is handed to [next]. *)
Fixpoint accept (left : nat) (got : option File) (evs : list Event)
  : Outcome (option File) :=
  match evs with
  | [] => Returned got
  | OnError msg :: _ => Thrown (Error msg)
  | OnField fd :: rest =>
      match field_name fd with
      | None => Thrown (MulterError MISSING_FIELD_NAME)
      | Some _ =>
          if nameTruncated fd then Thrown (MulterError LIMIT_FIELD_KEY)
          else if valueTruncated fd then Thrown (MulterError LIMIT_FIELD_VALUE)
          else accept left got rest
      end
  | OnFile p :: rest =>
      match filenameOf p with
      | None => accept left got rest
      | Some filename =>
          if negb (underName p) then Thrown (MulterError LIMIT_UNEXPECTED_FILE)
          else match left with
          | O => Thrown (MulterError LIMIT_UNEXPECTED_FILE)
          | S left' =>
              match fileFilter opts p with
              | Thrown e => Thrown e
              | Returned false => accept left' got rest
              | Returned true =>
                  let n := N.of_nat (List.length (part_content p)) in
                  if tooLarge n then Thrown (MulterError LIMIT_FILE_SIZE)
                  else accept left'
                         (Some (mkFile name filename (part_mimetype p) (part_content p) n))
                         rest
              end
          end
      end
  end.

(** [upload.single(name)]: a request that is not multipart passes through
    with [req.file] unset. *)
Definition single (req : Request) : Outcome (option File) :=
  if req_multipart req then accept 1 None (req_events req) else Returned None.

End Single.

End Multer.
Import Multer.

(** ** The framework's default error handler *)

Module Express.

Definition isErrorStatus (c : Z) : bool := ((400 <=? c) && (c <? 600))%Z.

(** Status of the answer to an error given to [next] when the application
    has no error-handling middleware: the error's [status], else its
    [statusCode], when in 400..599; else 500 (the response's own status is
    still 200 at that point). *)
Definition errorStatus (e : error) : Z :=
  match e_status e with
  | Some c => if isErrorStatus c then c
              else match e_statusCode e with
                   | Some c' => if isErrorStatus c' then c' else 500%Z
                   | None => 500%Z
                   end
  | None => match e_statusCode e with
            | Some c' => if isErrorStatus c' then c' else 500%Z
            | None => 500%Z
            end
  end.

Definition finalhandler (e : error) : Response :=
  mkResponse (errorStatus e) BodyHtml.

End Express.

(** ** The remote model's interface *)

(** One element of [parts]: [{ text }]. *)
Record ContentPart : Type := mkPart { p_text : jsstring }.

Record Content : Type := mkContent {
  role : jsstring;
  parts : list ContentPart
}.

Record GenerateContentConfig : Type := mkConfig {
  systemInstruction : jsstring;
  responseMimeType : jsstring;
  responseSchema : value
}.

(** The argument of [ai.models.generateContent]. *)
Record GenerateContentParameters : Type := mkParameters {
  model : jsstring;
  contents : list Content;
  config : GenerateContentConfig
}.

(** Its result; the route reads only the [text] of the answer. *)
Record Completion : Type := mkCompletion { c_text : jsstring }.

(** ** The handler monad *)

(** The two collaborators the route calls out to, with the argument of the
    call: the PDF text extraction and the remote model. *)
Inductive Call : Type :=
| GetText (data : list byte)
| GenerateContent (params : GenerateContentParameters).

(** The state a request runs in: the outside world the collaborators live in
    (of a type [W] the server knows nothing about), and the log of the calls
    made to them so far, oldest first. *)
Record St (W : Type) : Type := mkSt {
  world : W;
  calls : list Call
}.

(** A computation that may call collaborators and may throw. *)
Definition M (W A : Type) : Type := St W -> Outcome A * St W.

Definition ret {W A} (a : A) : M W A := fun st => (Returned a, st).

Definition bind {W A B} (m : M W A) (k : A -> M W B) : M W B :=
  fun st =>
    match m st with
    | (Returned a, st') => k a st'
    | (Thrown e, st') => (Thrown e, st')
    end.

(** A pure step that may throw. *)
Definition lift {W A} (o : Outcome A) : M W A := fun st => (o, st).

(** [await f(...)] on a collaborator: the call is logged, the world moves on,
    and a rejection is thrown. *)
Definition invoke {W A} (c : Call) (f : W -> Outcome A * W) : M W A :=
  fun st =>
    let (r, w') := f (world st) in
    (r, mkSt w' (calls st ++ [c])).

(** [try { body } catch (error) { handler }]. *)
Definition tryCatch {W A} (body : M W A) (handler : error -> M W A) : M W A :=
  fun st =>
    match body st with
    | (Returned a, st') => (Returned a, st')
    | (Thrown e, st') => handler e st'
    end.

Declare Scope handler_scope.
Delimit Scope handler_scope with handler.
Notation "x <- m ;; k" := (bind m (fun x => k))
  (at level 61, m at next level, right associativity) : handler_scope.

(** ** [server.js] *)

(** [const upload = multer({ storage, limits, fileFilter })]. *)
Definition upload : Multer.Options :=
  mkOptions
    (10 * 1024 * 1024)
    (fun file =>
       if negb (str_eqb (part_mimetype file) (js "application/pdf"))
       then Thrown (Error (js "Only PDF files are allowed"))
       else Returned true).

Definition resumeAnalysisSchema : value :=
  VObject
    [ (js "type", VString (js "OBJECT"));
      (js "properties",
       VObject
         [ (js "ats_score",
            VObject
              [ (js "type", VString (js "NUMBER"));
                (js "description", VString (js "The Applicant Tracking System (ATS) compatibility score as a number between 0 and 100, where 100 is perfect compatibility.")) ]);
           (js "structure",
            VObject
              [ (js "type", VString (js "STRING"));
                (js "description", VString (js "An evaluation of the resume's logical organization (e.g., clarity of sections, flow, use of headers).")) ]);
           (js "format",
            VObject
              [ (js "type", VString (js "STRING"));
                (js "description", VString (js "A critique of the visual presentation, layout, and readability (e.g., font choice, white space, consistency).")) ]);
           (js "keywords",
            VObject
              [ (js "type", VString (js "ARRAY"));
                (js "description", VString (js "A list of the top 5-10 relevant technical and soft skills/keywords found in the resume."));
                (js "items", VObject [ (js "type", VString (js "STRING")) ]) ]);
           (js "suggestions",
            VObject
              [ (js "type", VString (js "ARRAY"));
                (js "description", VString (js "Specific, actionable, and prioritized suggestions for improving the resume's content and presentation."));
                (js "items", VObject [ (js "type", VString (js "STRING")) ]) ]) ]);
      (js "propertyOrdering",
       VArray
         [ VString (js "ats_score"); VString (js "structure"); VString (js "format");
           VString (js "keywords"); VString (js "suggestions") ]) ].

Definition theSystemInstruction : jsstring :=
  js "You are an expert resume analyzer. Evaluate the provided resume text for structure, formatting, and relevant keywords. Crucially, calculate an Applicant Tracking System (ATS) compatibility score out of 100 based on the resume's clarity, sectioning, keyword density, and formatting. You MUST return your entire response as a single, valid JSON object strictly adhering to the defined schema. Do NOT include any introductory, explanatory, or concluding text outside of the JSON.".

(** The argument of the [generateContent] call for the text [resumeText]. *)
Definition generateContentParameters (resumeText : jsstring) : GenerateContentParameters :=
  mkParameters
    (js "gemini-2.5-flash")
    [ mkContent (js "user") [ mkPart resumeText ] ]
    (mkConfig theSystemInstruction (js "application/json") resumeAnalysisSchema).

(** The empty string literal. *)
Definition emptyString : jsstring := [].

Definition noFileUploaded : jsstring := js "No file uploaded".

Definition noReadableText : jsstring :=
  js "No readable text found in PDF (the file might be an image scan).".

Definition internalServerError : jsstring :=
  js "An internal server error occurred during analysis.".

Section Server.

Local Open Scope handler_scope.

(** The outside world and the collaborators.  A collaborator answers from
    its argument and the current world, and may change the world. *)
Variable W : Type.

(** [new PDFParse({ data: buffer }).getText()]. *)
Variable PDFParse_getText : list byte -> W -> Outcome value * W.

(** [ai.models.generateContent(params)]. *)
Variable generateContent : GenerateContentParameters -> W -> Outcome Completion * W.

(** [JSON.parse] on a string: a pure function of the text. *)
Variable JSON_parse : jsstring -> Outcome value.

(** See [Multer.tooLarge]. *)
Variable cutAtLimit : bool.

(** The route handler, lines 64 to 118; [file] is [req.file].  Console
    output is not part of the response and is left out. *)
Definition handler (file : option File) : M W Response :=
  tryCatch
    (match file with
     | None =>
         ret (status_json 400 (VObject [ (js "error", VString noFileUploaded) ]))
     | Some f =>
         let buffer := buffer f in
         pdfData <- invoke (GetText buffer) (PDFParse_getText buffer) ;;
         text <- lift (getProp pdfData (js "text")) ;;
         resumeText <- lift (callTrim (or_else text (VString emptyString))) ;;
         if negb (truthy (VString resumeText))
         then ret (status_json 400 (VObject [ (js "error", VString noReadableText) ]))
         else
           let params := generateContentParameters resumeText in
           completion <- invoke (GenerateContent params) (generateContent params) ;;
           let jsonResponse := c_text completion in
           analysis <- lift (JSON_parse jsonResponse) ;;
           ret (status_json 200 (VObject [ (js "analysis", analysis) ]))
     end)
    (fun error =>
       ret (status_json 500
              (VObject [ (js "error",
                          or_else (VString (e_message error))
                                  (VString internalServerError)) ]))).

(** [app.post("/analyze", upload.single("file"), handler)].  An error of the
    upload goes to [next]; the application registers no error-handling
    middleware, so the framework's default handler answers it. *)
Definition post_analyze (req : Request) : M W Response :=
  match Multer.single cutAtLimit upload (js "file") req with
  | Thrown err => ret (Express.finalhandler err)
  | Returned file => handler file
  end.

(** The calls a request adds to the log. *)
Definition callsOf (req : Request) (w : W) : list Call :=
  calls (snd (post_analyze req (mkSt w []))).

End Server.

(** [const PORT = process.env.PORT || 3000]; [env_PORT] is the environment
    variable when it is set (environment variables are strings). *)
Definition PORT (env_PORT : option jsstring) : value :=
  or_else (match env_PORT with Some s => VString s | None => VUndefined end)
          (VNumber (S754_finite false 6597069766656000 (-41))).

Arguments js : simpl never.

(** Which collaborators a log of calls mentions. *)
Definition isGetText (c : Call) : bool :=
  match c with GetText _ => true | GenerateContent _ => false end.

Definition isGenerateContent (c : Call) : bool :=
  match c with GetText _ => false | GenerateContent _ => true end.

Definition extractionInvoked (cs : list Call) : bool := existsb isGetText cs.

Definition remoteInvoked (cs : list Call) : bool := existsb isGenerateContent cs.

(** Reading a schema object: the declared fields with their [type] and, for
    arrays, the [type] of their [items]; and the [propertyOrdering] list. *)
Definition stringOf (v : option value) : option jsstring :=
  match v with Some (VString s) => Some s | _ => None end.

Definition typeOf (v : value) : option jsstring :=
  match v with VObject ps => stringOf (lookup (js "type") ps) | _ => None end.

Definition itemsTypeOf (v : value) : option jsstring :=
  match v with
  | VObject ps => match lookup (js "items") ps with Some i => typeOf i | None => None end
  | _ => None
  end.

Definition declaredFields (schema : value) : list (jsstring * option jsstring * option jsstring) :=
  match schema with
  | VObject ps =>
      match lookup (js "properties") ps with
      | Some (VObject fs) => map (fun kd => (fst kd, typeOf (snd kd), itemsTypeOf (snd kd))) fs
      | _ => []
      end
  | _ => []
  end.

Definition propertyOrdering (schema : value) : list (option jsstring) :=
  match schema with
  | VObject ps =>
      match lookup (js "propertyOrdering") ps with
      | Some (VArray xs) => map (fun x => stringOf (Some x)) xs
      | _ => []
      end
  | _ => []
  end.

(** The schema a logged call carries ([None] for an extraction call). *)
Definition schemaOfCall (c : Call) : option value :=
  match c with
  | GetText _ => None
  | GenerateContent p => Some (responseSchema (config p))
  end.

(** [pdfData.text] is absent, [undefined] or [null] on the object [pdfData]. *)
Definition textMissing (pdfData : value) : bool :=
  match pdfData with
  | VObject props =>
      match lookup (js "text") props with
      | None | Some VUndefined | Some VNull => true
      | Some _ => false
      end
  | _ => false
  end.

(** The two shapes of JSON error the handler writes. *)
Definition clientError (msg : jsstring) : Response :=
  status_json 400 (VObject [ (js "error", VString msg) ]).

Definition serverError (e : error) : Response :=
  status_json 500
    (VObject [ (js "error",
                or_else (VString (e_message e)) (VString internalServerError)) ]).

(** The state after the extraction call, and after the remote call as well. *)
Definition extracted {W : Type} (st : St W) (f : File) (w : W) : St W :=
  mkSt w (calls st ++ [GetText (buffer f)]).

Definition requested {W : Type} (st : St W) (f : File) (rt : jsstring) (w : W) : St W :=
  mkSt w (calls st ++ [GetText (buffer f); GenerateContent (generateContentParameters rt)]).

(** A collaborator is deterministic when its answer depends on its argument
    only, not on the world it is called in. *)
Definition deterministic {W X A : Type} (f : X -> W -> Outcome A * W) : Prop :=
  forall x w w', fst (f x w) = fst (f x w').

(** ** Stand-ins for the collaborators

    Deterministic stubs over a world that counts the calls served, and a few
    requests, used to run the route on concrete inputs. *)

Module Stub.

Definition World : Type := nat.

(** The bytes [%PDF-1.7]. *)
Definition cv : list byte := [x25; x50; x44; x46; x2d; x31; x2e; x37].

(** The file part of a PDF chosen in the form's [file] input. *)
Definition pdfPart : FilePart :=
  mkFilePart (Some (js "file")) (Some (js "cv.pdf")) (js "application/pdf") cv.

(** The part a browser sends for a file input left empty. *)
Definition emptyInput (field : string) : FilePart :=
  mkFilePart (Some (js field)) (Some []) (js "application/octet-stream") [].

Definition pdfUpload : Request := mkRequest true [ OnFile pdfPart ].

Definition plainTextUpload : Request :=
  mkRequest true
    [ OnFile (mkFilePart (Some (js "file")) (Some (js "notes.txt")) (js "text/plain") cv) ].

(** A PDF of 10 MiB and one byte. *)
Definition oversizedUpload : Request :=
  mkRequest true
    [ OnFile (mkFilePart (Some (js "file")) (Some (js "cv.pdf")) (js "application/pdf")
                (repeat x00 (N.to_nat (10 * 1024 * 1024 + 1)))) ].

Definition emptyForm : Request := mkRequest true [].

Definition reqFile : File :=
  mkFile (js "file") (js "cv.pdf") (js "application/pdf") cv 8.

(** Extraction finds text, surrounded by white space. *)
Definition getText (data : list byte) (w : World) : Outcome value * World :=
  (Returned (VObject [ (js "text", VString (32 :: 10 :: js "Jane Doe, engineer" ++ [32])%N) ]), S w).

(** Extraction of a scanned page: only white space. *)
Definition getTextScan (data : list byte) (w : World) : Outcome value * World :=
  (Returned (VObject [ (js "text", VString [32; 10; 12]%N) ]), S w).

(** Extraction resolves to a result without a [text] property. *)
Definition getTextNoField (data : list byte) (w : World) : Outcome value * World :=
  (Returned (VObject [ (js "total", VNumber (S754_finite false 4503599627370496 (-52))) ]), S w).

Definition resumeText : jsstring := js "Jane Doe, engineer".

Definition quoted (s : string) : jsstring := (34 :: js s ++ [34])%N.

(** The JSON text of the model's answer. *)
Definition answer : jsstring :=
  js "{" ++ quoted "ats_score" ++ js ":87,"
     ++ quoted "structure" ++ js ":" ++ quoted "Clear sections" ++ js ","
     ++ quoted "format" ++ js ":" ++ quoted "Consistent" ++ js ","
     ++ quoted "keywords" ++ js ":[" ++ quoted "Rocq" ++ js "],"
     ++ quoted "suggestions" ++ js ":[" ++ quoted "Add dates" ++ js "]}".

(** The object that text encodes (87 as a binary64 number). *)
Definition analysis : value :=
  VObject
    [ (js "ats_score", VNumber (S754_finite false 6122080743456768 (-46)));
      (js "structure", VString (js "Clear sections"));
      (js "format", VString (js "Consistent"));
      (js "keywords", VArray [ VString (js "Rocq") ]);
      (js "suggestions", VArray [ VString (js "Add dates") ]) ].

Definition generateContent (p : GenerateContentParameters) (w : World)
  : Outcome Completion * World :=
  (Returned (mkCompletion answer), S w).

(** The remote call rejects with an error carrying [msg]. *)
Definition generateContentFails (msg : jsstring) (p : GenerateContentParameters) (w : World)
  : Outcome Completion * World :=
  (Thrown (Error msg), S w).

(** The remote call answers with prose instead of JSON. *)
Definition generateContentProse (p : GenerateContentParameters) (w : World)
  : Outcome Completion * World :=
  (Returned (mkCompletion (js "Sorry, I cannot help with that.")), S w).

Definition SyntaxError (msg : jsstring) : error := mkError (js "SyntaxError") msg None None.

(** A parser that knows the one document [answer]. *)
Definition JSON_parse (s : jsstring) : Outcome value :=
  if str_eqb s answer then Returned analysis
  else Thrown (SyntaxError (js "Unexpected token 'S', is not valid JSON")).

(** Extraction rejects: the parser throws on the file. *)
Definition getTextFails (data : list byte) (w : World) : Outcome value * World :=
  (Thrown (Error (js "Invalid PDF structure")), S w).

(** Extraction resolves to [null]. *)
Definition getTextNull (data : list byte) (w : World) : Outcome value * World :=
  (Returned VNull, S w).

(** Extraction resolves with a [text] that is a number, not a string. *)
Definition getTextNumber (data : list byte) (w : World) : Outcome value * World :=
  (Returned (VObject [ (js "text", VNumber (S754_finite false 6122080743456768 (-46))) ]), S w).

(** Extraction resolves with the number zero as [text]. *)
Definition getTextZero (data : list byte) (w : World) : Outcome value * World :=
  (Returned (VObject [ (js "text", VNumber (S754_zero false)) ]), S w).

(** A PDF sent under the field [resume]. *)
Definition resumePart : FilePart :=
  mkFilePart (Some (js "resume")) (Some (js "cv.pdf")) (js "application/pdf") cv.

Definition wrongFieldUpload : Request :=
  mkRequest true [ OnFile (emptyInput "file"); OnFile resumePart ].

(** Two PDFs under the field [file]. *)
Definition twoFilesUpload : Request :=
  mkRequest true [ OnFile pdfPart; OnFile pdfPart ].

(** A request whose content type is not multipart. *)
Definition plainPost : Request :=
  mkRequest false [ OnFile pdfPart ].

(** A form with a text field and its [file] input left empty. *)
Definition noFileChosen : Request :=
  mkRequest true
    [ OnField (mkField (Some (js "name")) false false); OnFile (emptyInput "file") ].

(** A PDF in [file], between a text field and an empty [photo] input. *)
Definition pdfAmongOthers : Request :=
  mkRequest true
    [ OnField (mkField (Some (js "name")) false false);
      OnFile (emptyInput "photo");
      OnFile pdfPart;
      OnFile (emptyInput "cover") ].

(** A form without files whose text field the parser cut off. *)
Definition longFieldForm : Request :=
  mkRequest true [ OnField (mkField (Some (js "note")) false true) ].

(** A multipart body the parser cannot read. *)
Definition brokenForm : Request :=
  mkRequest true [ OnError (js "Unexpected end of form") ].

End Stub.

(** ** Strings and trimming *)

Lemma str_eqb_refl (s : jsstring) : str_eqb s s = true.
Proof.
  induction s as [|c s IH]; simpl; [reflexivity|].
  now rewrite N.eqb_refl, IH.
Qed.

Lemma str_eqb_eq (a b : jsstring) : str_eqb a b = true <-> a = b.
Proof.
  split.
  - revert b; induction a as [|x a IH]; intros [|y b] H; simpl in H;
      try discriminate; [reflexivity|].
    apply andb_true_iff in H as [Hx Hr].
    apply N.eqb_eq in Hx. apply IH in Hr. now subst.
  - intros ->. apply str_eqb_refl.
Qed.

Lemma str_eqb_neq (a b : jsstring) : a <> b -> str_eqb a b = false.
Proof.
  intros H. destruct (str_eqb a b) eqn:E; [|reflexivity].
  apply str_eqb_eq in E. contradiction.
Qed.

Lemma str_eqb_nil (s : jsstring) : str_eqb s [] = true <-> s = [].
Proof. apply str_eqb_eq. Qed.

Lemma trimStart_nil (s : jsstring) :
  trimStart s = [] <-> forallb isTrimmable s = true.
Proof.
  induction s as [|c s IH]; simpl; [tauto|].
  destruct (isTrimmable c); simpl; [exact IH|].
  split; discriminate.
Qed.

Lemma trimStart_all (s : jsstring) :
  forallb isTrimmable s = true -> trimStart s = [].
Proof. apply trimStart_nil. Qed.

Lemma forallb_trimStart (s : jsstring) :
  forallb isTrimmable (trimStart s) = true -> forallb isTrimmable s = true.
Proof.
  induction s as [|c s IH]; simpl; [tauto|].
  destruct (isTrimmable c) eqn:E; simpl; [exact IH|].
  now rewrite E.
Qed.

Lemma forallb_reversed (f : N -> bool) (l : list N) :
  forallb f (rev l) = forallb f l.
Proof.
  induction l as [|x l IH]; simpl; [reflexivity|].
  rewrite forallb_app, IH. simpl.
  rewrite andb_true_r. apply andb_comm.
Qed.

(** Trimming leaves nothing exactly when the string is all white space. *)
Lemma trim_nil (s : jsstring) :
  trim s = [] <-> forallb isTrimmable s = true.
Proof.
  unfold trim, trimEnd. split.
  - intros H.
    assert (Hr : trimStart (rev (trimStart s)) = []).
    { rewrite <- (rev_involutive (trimStart _)), H. reflexivity. }
    apply trimStart_nil in Hr. rewrite forallb_reversed in Hr.
    now apply forallb_trimStart.
  - intros H. rewrite (trimStart_all _ H). reflexivity.
Qed.

(** The first code unit that [trimStart] keeps is not white space. *)
Lemma trimStart_head (s : jsstring) (c : N) (r : jsstring) :
  trimStart s = c :: r -> isTrimmable c = false.
Proof.
  induction s as [|x s IH]; simpl; [discriminate|].
  destruct (isTrimmable x) eqn:E; [exact IH|].
  intros H; injection H as -> _. exact E.
Qed.

Example trim_example : trim (js "  Jane Doe  ") = js "Jane Doe".
Proof. reflexivity. Qed.

Example trim_blank : trim (js "   ") = emptyString.
Proof. reflexivity. Qed.

(** ** The upload gate *)

Lemma single_not_multipart (cut : bool) (req : Request) :
  req_multipart req = false ->
  Multer.single cut upload (js "file") req = Returned None.
Proof. unfold Multer.single. now intros ->. Qed.

(** Events that are passed over leave the upload as it is. *)
Lemma accept_passedOver (cut : bool) (before rest : list Event)
      (left : nat) (got : option File) :
  forallb passedOver before = true ->
  accept cut upload (js "file") left got (before ++ rest)
  = accept cut upload (js "file") left got rest.
Proof.
  induction before as [|ev before IH]; [reflexivity|].
  cbn [forallb]. intros H. apply andb_true_iff in H as [Hev Hb].
  cbn [app accept]. destruct ev as [p|fd|msg]; cbn [passedOver] in Hev.
  - destruct (filenameOf p); [discriminate|]. now apply IH.
  - destruct (field_name fd); [|discriminate].
    apply andb_true_iff in Hev as [Hn Hv].
    apply negb_true_iff in Hn. apply negb_true_iff in Hv.
    rewrite Hn, Hv. now apply IH.
  - discriminate.
Qed.



Lemma fileFilter_pdf (p : FilePart) :
  part_mimetype p = js "application/pdf" ->
  fileFilter upload p = Returned true.
Proof. simpl. intros ->. now rewrite str_eqb_refl. Qed.

Lemma fileFilter_other (p : FilePart) :
  part_mimetype p <> js "application/pdf" ->
  fileFilter upload p = Thrown (Error (js "Only PDF files are allowed")).
Proof. simpl. intros H. now rewrite (str_eqb_neq H). Qed.

Lemma underName_file (p : FilePart) :
  part_fieldname p = Some (js "file") ->
  underName (js "file") p = true.
Proof. unfold underName. intros ->. apply str_eqb_refl. Qed.

(** With no file left to take, the upload ends as it stands or fails. *)
Lemma accept_none_left (cut : bool) (evs : list Event) (got r : option File) :
  accept cut upload (js "file") 0 got evs = Returned r ->
  r = got /\ forallb passedOver evs = true.
Proof.
  induction evs as [|ev evs IH]; cbn [accept forallb].
  - intros H; injection H as <-. now split.
  - destruct ev as [p|fd|msg]; cbn [passedOver].
    + destruct (filenameOf p).
      * destruct (negb (underName (js "file") p)); intros H; discriminate H.
      * exact IH.
    + destruct (field_name fd); [|intros H; discriminate H].
      destruct (nameTruncated fd); [intros H; discriminate H|].
      destruct (valueTruncated fd); [intros H; discriminate H|].
      exact IH.
    + intros H; discriminate H.
Qed.

(** The first uploaded file, under the field [file], with another MIME type
    ends the upload with the filter's error. *)
Lemma single_wrong_mime (cut : bool) (req : Request) (before rest : list Event)
      (p : FilePart) (fn : jsstring) :
  req_multipart req = true ->
  req_events req = before ++ OnFile p :: rest ->
  forallb passedOver before = true ->
  filenameOf p = Some fn ->
  part_fieldname p = Some (js "file") ->
  part_mimetype p <> js "application/pdf" ->
  Multer.single cut upload (js "file") req
  = Thrown (Error (js "Only PDF files are allowed")).
Proof.
  intros Hm Hf Hb Hfn Hn Ht. unfold Multer.single. rewrite Hm, Hf.
  erewrite accept_passedOver by exact Hb.
  cbn [accept]. rewrite Hfn. erewrite underName_file by exact Hn. cbn [negb].
  now erewrite fileFilter_other by exact Ht.
Qed.

(** The first uploaded file, a PDF under the field [file] of more than
    [limits.fileSize] bytes, ends the upload with the size error. *)
Lemma single_too_large (cut : bool) (req : Request) (before rest : list Event)
      (p : FilePart) (fn : jsstring) :
  req_multipart req = true ->
  req_events req = before ++ OnFile p :: rest ->
  forallb passedOver before = true ->
  filenameOf p = Some fn ->
  part_fieldname p = Some (js "file") ->
  part_mimetype p = js "application/pdf" ->
  (limits_fileSize upload < N.of_nat (List.length (part_content p)))%N ->
  Multer.single cut upload (js "file") req = Thrown (MulterError LIMIT_FILE_SIZE).
Proof.
  intros Hm Hf Hb Hfn Hn Ht Hs. unfold Multer.single. rewrite Hm, Hf.
  erewrite accept_passedOver by exact Hb.
  cbn [accept]. rewrite Hfn. erewrite underName_file by exact Hn. cbn [negb].
  erewrite fileFilter_pdf by exact Ht. cbv zeta.
  unfold tooLarge. apply N.ltb_lt in Hs. now rewrite Hs.
Qed.


(** Whatever the gate lets through was the only uploaded file of a
    multipart body, sent under the field [file], with the MIME type
    [application/pdf] and within the limit; all else in the body was passed
    over. *)
Lemma single_Some_inv (cut : bool) (req : Request) (f : File) :
  Multer.single cut upload (js "file") req = Returned (Some f) ->
  req_multipart req = true /\
  exists before p fn after,
    req_events req = before ++ OnFile p :: after /\
    forallb passedOver before = true /\
    forallb passedOver after = true /\
    filenameOf p = Some fn /\
    part_fieldname p = Some (js "file") /\
    part_mimetype p = js "application/pdf" /\
    (N.of_nat (List.length (part_content p)) <= limits_fileSize upload)%N /\
    f = mkFile (js "file") fn (part_mimetype p) (part_content p)
          (N.of_nat (List.length (part_content p))).
Proof.
  unfold Multer.single. destruct (req_multipart req); [|discriminate].
  intros H. split; [reflexivity|]. revert H.
  induction (req_events req) as [|ev evs IH]; cbn [accept].
  - discriminate.
  - destruct ev as [p|fd|msg].
    + destruct (filenameOf p) as [fn|] eqn:Hfn.
      * destruct (underName (js "file") p) eqn:Hn; [|intros H; discriminate H].
        cbn [negb]. unfold underName in Hn.
        destruct (part_fieldname p) as [n|] eqn:Hpn; [|discriminate].
        apply str_eqb_eq in Hn. subst n.
        simpl fileFilter.
        destruct (str_eqb (part_mimetype p) (js "application/pdf")) eqn:Et;
          [|intros H; discriminate H].
        cbn [negb]. cbv zeta. apply str_eqb_eq in Et.
        destruct (tooLarge cut upload (N.of_nat (List.length (part_content p)))) eqn:El;
          [intros H; discriminate H|].
        intros H. apply accept_none_left in H as [E Ha].
        injection E as E.
        unfold tooLarge in El. apply orb_false_iff in El as [El _].
        apply N.ltb_ge in El.
        exists [], p, fn, evs.
        split; [reflexivity|]. split; [reflexivity|]. split; [exact Ha|].
        split; [exact Hfn|]. split; [exact Hpn|]. split; [exact Et|].
        split; [exact El|exact E].
      * intros H. destruct (IH H) as (b & q & fn & a & E & Hb & Ha & Hq).
        exists (OnFile p :: b), q, fn, a. rewrite E.
        split; [reflexivity|]. split; [|exact (conj Ha Hq)].
        cbn [forallb passedOver]. now rewrite Hfn, Hb.
    + destruct (field_name fd) as [n|] eqn:Hfd; [|intros H; discriminate H].
      destruct (nameTruncated fd) eqn:Hnt; [intros H; discriminate H|].
      destruct (valueTruncated fd) eqn:Hvt; [intros H; discriminate H|].
      intros H. destruct (IH H) as (b & q & fn & a & E & Hb & Ha & Hq).
      exists (OnField fd :: b), q, fn, a. rewrite E.
      split; [reflexivity|]. split; [|exact (conj Ha Hq)].
      cbn [forallb passedOver]. now rewrite Hfd, Hnt, Hvt, Hb.
    + intros H; discriminate H.
Qed.

(** When the gate passes a request on with [req.file] unset, the request is
    not multipart, or all of its body was passed over. *)
Lemma single_None_inv (cut : bool) (req : Request) :
  Multer.single cut upload (js "file") req = Returned None ->
  req_multipart req = false \/ forallb passedOver (req_events req) = true.
Proof.
  unfold Multer.single. destruct (req_multipart req); [|now left].
  intros H. right. revert H.
  induction (req_events req) as [|ev evs IH]; cbn [accept forallb]; [reflexivity|].
  destruct ev as [p|fd|msg]; cbn [passedOver].
  - destruct (filenameOf p) as [fn|]; [|exact IH].
    destruct (negb (underName (js "file") p)); [intros H; discriminate H|].
    simpl fileFilter.
    destruct (negb (str_eqb (part_mimetype p) (js "application/pdf")));
      [intros H; discriminate H|].
    cbv zeta.
    destruct (tooLarge cut upload (N.of_nat (List.length (part_content p))));
      [intros H; discriminate H|].
    intros H. apply accept_none_left in H as [E _]. discriminate E.
  - destruct (field_name fd); [|intros H; discriminate H].
    destruct (nameTruncated fd); [intros H; discriminate H|].
    destruct (valueTruncated fd); [intros H; discriminate H|].
    exact IH.
  - intros H; discriminate H.
Qed.

(** ** Running the handler monad *)

Section Steps.

Context {W A B : Type}.

Lemma bind_invoke_returned (c : Call) (f : W -> Outcome A * W) (k : A -> M W B)
      (st : St W) (a : A) (w' : W) :
  f (world st) = (Returned a, w') ->
  bind (invoke c f) k st = k a (mkSt w' (calls st ++ [c])).
Proof. unfold bind, invoke. now intros ->. Qed.

Lemma bind_invoke_thrown (c : Call) (f : W -> Outcome A * W) (k : A -> M W B)
      (st : St W) (e : error) (w' : W) :
  f (world st) = (Thrown e, w') ->
  bind (invoke c f) k st = (Thrown e, mkSt w' (calls st ++ [c])).
Proof. unfold bind, invoke. now intros ->. Qed.

Lemma bind_lift_returned (o : Outcome A) (k : A -> M W B) (st : St W) (a : A) :
  o = Returned a -> bind (lift o) k st = k a st.
Proof. now intros ->. Qed.

Lemma bind_lift_thrown (o : Outcome A) (k : A -> M W B) (st : St W) (e : error) :
  o = Thrown e -> bind (lift o) k st = (Thrown e, st).
Proof. now intros ->. Qed.

Lemma tryCatch_returned (body : M W A) (h : error -> M W A) (st st' : St W) (a : A) :
  body st = (Returned a, st') -> tryCatch body h st = (Returned a, st').
Proof. unfold tryCatch. now intros ->. Qed.

Lemma tryCatch_thrown (body : M W A) (h : error -> M W A) (st st' : St W) (e : error) :
  body st = (Thrown e, st') -> tryCatch body h st = h e st'.
Proof. unfold tryCatch. now intros ->. Qed.

End Steps.

(** The trimmed text, when [pdfData.text] is a string. *)
Lemma callTrim_string (t : jsstring) :
  callTrim (or_else (VString t) (VString emptyString)) = Returned (trim t).
Proof. destruct t; reflexivity. Qed.

(** The trimmed text, when [pdfData.text] is falsy: the empty string. *)
Lemma callTrim_falsy (v : value) :
  truthy v = false ->
  callTrim (or_else v (VString emptyString)) = Returned [].
Proof. unfold or_else. now intros ->. Qed.

Lemma getProp_textMissing (pd : value) :
  textMissing pd = true ->
  exists v, getProp pd (js "text") = Returned v /\ truthy v = false.
Proof.
  destruct pd as [| | | | | |props]; try discriminate.
  unfold textMissing, getProp.
  destruct (lookup (js "text") props) as [[]|]; try discriminate;
    intros _; eexists; split; reflexivity.
Qed.

Lemma not_empty_string (s : jsstring) :
  s <> [] -> negb (truthy (VString s)) = false.
Proof.
  intros H. simpl. rewrite negb_involutive. now apply str_eqb_neq.
Qed.

(** [error.message || "An internal server error occurred during analysis."] *)
Lemma message_or_default (e : error) :
  or_else (VString (e_message e)) (VString internalServerError)
  = VString (match e_message e with [] => internalServerError | _ :: _ => e_message e end).
Proof. unfold or_else. simpl. now destruct (e_message e). Qed.

(** ** The paths through the route *)

Section Paths.

Variable W : Type.
Variable getText : list byte -> W -> Outcome value * W.
Variable gen : GenerateContentParameters -> W -> Outcome Completion * W.
Variable parse : jsstring -> Outcome value.
Variable cut : bool.

Local Abbreviation handle := (handler getText gen parse).
Local Abbreviation route := (post_analyze getText gen parse cut).

Lemma route_rejected (req : Request) (st : St W) (err : error) :
  Multer.single cut upload (js "file") req = Thrown err ->
  route req st = (Returned (Express.finalhandler err), st).
Proof. unfold post_analyze. now intros ->. Qed.

Lemma route_handler (req : Request) (st : St W) (file : option File) :
  Multer.single cut upload (js "file") req = Returned file ->
  route req st = handle file st.
Proof. unfold post_analyze. now intros ->. Qed.

Lemma handler_no_file (st : St W) :
  handle None st = (Returned (clientError noFileUploaded), st).
Proof. reflexivity. Qed.

Ltac caught := unfold handler; erewrite tryCatch_thrown; [reflexivity|].
Ltac answered := unfold handler; apply tryCatch_returned.
Ltac called H := erewrite bind_invoke_returned by exact H.
Ltac computed H := erewrite bind_lift_returned by exact H.

Lemma handler_extraction_fails (f : File) (st : St W) (e : error) (w1 : W) :
  getText (buffer f) (world st) = (Thrown e, w1) ->
  handle (Some f) st = (Returned (serverError e), extracted st f w1).
Proof.
  intros Hx. caught.
  cbv zeta. now apply bind_invoke_thrown.
Qed.

Lemma handler_text_unreadable (f : File) (st : St W) (pd : value) (e : error) (w1 : W) :
  getText (buffer f) (world st) = (Returned pd, w1) ->
  getProp pd (js "text") = Thrown e ->
  handle (Some f) st = (Returned (serverError e), extracted st f w1).
Proof.
  intros Hx Ht. caught.
  cbv zeta. called Hx. now apply bind_lift_thrown.
Qed.

Lemma handler_trim_fails (f : File) (st : St W) (pd txt : value) (e : error) (w1 : W) :
  getText (buffer f) (world st) = (Returned pd, w1) ->
  getProp pd (js "text") = Returned txt ->
  callTrim (or_else txt (VString emptyString)) = Thrown e ->
  handle (Some f) st = (Returned (serverError e), extracted st f w1).
Proof.
  intros Hx Ht Hr. caught.
  cbv zeta. called Hx. computed Ht. now apply bind_lift_thrown.
Qed.

Lemma handler_no_text (f : File) (st : St W) (pd txt : value) (w1 : W) :
  getText (buffer f) (world st) = (Returned pd, w1) ->
  getProp pd (js "text") = Returned txt ->
  callTrim (or_else txt (VString emptyString)) = Returned [] ->
  handle (Some f) st = (Returned (clientError noReadableText), extracted st f w1).
Proof.
  intros Hx Ht Hr. answered.
  cbv zeta. called Hx. computed Ht. computed Hr. reflexivity.
Qed.

Lemma handler_remote_fails (f : File) (st : St W) (pd txt : value) (rt : jsstring)
      (e : error) (w1 w2 : W) :
  getText (buffer f) (world st) = (Returned pd, w1) ->
  getProp pd (js "text") = Returned txt ->
  callTrim (or_else txt (VString emptyString)) = Returned rt ->
  rt <> [] ->
  gen (generateContentParameters rt) w1 = (Thrown e, w2) ->
  handle (Some f) st = (Returned (serverError e), requested st f rt w2).
Proof.
  intros Hx Ht Hr Hne Hc. caught.
  cbv zeta. called Hx. computed Ht. computed Hr.
  rewrite (not_empty_string Hne).
  erewrite bind_invoke_thrown by exact Hc.
  cbn [calls]. now rewrite <- app_assoc.
Qed.

Lemma handler_parse_fails (f : File) (st : St W) (pd txt : value) (rt : jsstring)
      (c : Completion) (e : error) (w1 w2 : W) :
  getText (buffer f) (world st) = (Returned pd, w1) ->
  getProp pd (js "text") = Returned txt ->
  callTrim (or_else txt (VString emptyString)) = Returned rt ->
  rt <> [] ->
  gen (generateContentParameters rt) w1 = (Returned c, w2) ->
  parse (c_text c) = Thrown e ->
  handle (Some f) st = (Returned (serverError e), requested st f rt w2).
Proof.
  intros Hx Ht Hr Hne Hc Hp. caught.
  cbv zeta. called Hx. computed Ht. computed Hr.
  rewrite (not_empty_string Hne).
  called Hc. erewrite bind_lift_thrown by exact Hp.
  cbn [calls]. now rewrite <- app_assoc.
Qed.

Lemma handler_success (f : File) (st : St W) (pd txt : value) (rt : jsstring)
      (c : Completion) (v : value) (w1 w2 : W) :
  getText (buffer f) (world st) = (Returned pd, w1) ->
  getProp pd (js "text") = Returned txt ->
  callTrim (or_else txt (VString emptyString)) = Returned rt ->
  rt <> [] ->
  gen (generateContentParameters rt) w1 = (Returned c, w2) ->
  parse (c_text c) = Returned v ->
  handle (Some f) st
  = (Returned (status_json 200 (VObject [ (js "analysis", v) ])), requested st f rt w2).
Proof.
  intros Hx Ht Hr Hne Hc Hp. answered.
  cbv zeta. called Hx. computed Ht. computed Hr.
  rewrite (not_empty_string Hne).
  called Hc. computed Hp.
  unfold ret. cbn [calls]. now rewrite <- app_assoc.
Qed.

End Paths.

(** ** Every run of the route *)

Section Runs.

Variable W : Type.
Variable getText : list byte -> W -> Outcome value * W.
Variable gen : GenerateContentParameters -> W -> Outcome Completion * W.
Variable parse : jsstring -> Outcome value.
Variable cut : bool.

Local Abbreviation handle := (handler getText gen parse).
Local Abbreviation route := (post_analyze getText gen parse cut).

(** The handler on an accepted file, stage by stage. *)
Lemma handler_cases (f : File) (st : St W) :
  match getText (buffer f) (world st) with
  | (Thrown e, w1) =>
      handle (Some f) st = (Returned (serverError e), extracted st f w1)
  | (Returned pd, w1) =>
      match getProp pd (js "text") with
      | Thrown e => handle (Some f) st = (Returned (serverError e), extracted st f w1)
      | Returned txt =>
          match callTrim (or_else txt (VString emptyString)) with
          | Thrown e => handle (Some f) st = (Returned (serverError e), extracted st f w1)
          | Returned [] =>
              handle (Some f) st = (Returned (clientError noReadableText), extracted st f w1)
          | Returned ((_ :: _) as rt) =>
              match gen (generateContentParameters rt) w1 with
              | (Thrown e, w2) =>
                  handle (Some f) st = (Returned (serverError e), requested st f rt w2)
              | (Returned c, w2) =>
                  match parse (c_text c) with
                  | Thrown e =>
                      handle (Some f) st = (Returned (serverError e), requested st f rt w2)
                  | Returned v =>
                      handle (Some f) st
                      = (Returned (status_json 200 (VObject [ (js "analysis", v) ])),
                         requested st f rt w2)
                  end
              end
          end
      end
  end.
Proof.
  destruct (getText (buffer f) (world st)) as [[pd|e] w1] eqn:Hx.
  2:{ now apply handler_extraction_fails. }
  destruct (getProp pd (js "text")) as [txt|e] eqn:Ht.
  2:{ now apply handler_text_unreadable with (pd := pd). }
  destruct (callTrim (or_else txt (VString emptyString))) as [[|u rt]|e] eqn:Hr.
  3:{ now apply handler_trim_fails with (pd := pd) (txt := txt). }
  { now apply handler_no_text with (pd := pd) (txt := txt). }
  assert (Hne : u :: rt <> []) by discriminate.
  destruct (gen (generateContentParameters (u :: rt)) w1) as [[c|e] w2] eqn:Hc.
  2:{ now apply handler_remote_fails with (pd := pd) (txt := txt) (w1 := w1). }
  destruct (parse (c_text c)) as [v|e] eqn:Hp.
  - now apply handler_success with (pd := pd) (txt := txt) (c := c) (w1 := w1).
  - now apply handler_parse_fails with (pd := pd) (txt := txt) (c := c) (w1 := w1).
Qed.

(** The route always answers: nothing escapes the handler's [catch]. *)
Lemma route_responds (req : Request) (st : St W) :
  exists resp st', route req st = (Returned resp, st').
Proof.
  unfold post_analyze.
  destruct (Multer.single cut upload (js "file") req) as [[f|]|err].
  - pose proof (handler_cases f st) as H.
    destruct (getText (buffer f) (world st)) as [[pd|e] w1]; [|eauto].
    destruct (getProp pd (js "text")) as [txt|e]; [|eauto].
    destruct (callTrim (or_else txt (VString emptyString))) as [[|u rt]|e]; [eauto| |eauto].
    destruct (gen (generateContentParameters (u :: rt)) w1) as [[c|e] w2]; [|eauto].
    destruct (parse (c_text c)) as [v|e]; eauto.
  - rewrite handler_no_file. eauto.
  - unfold ret. eauto.
Qed.

End Runs.

(** ** What the route guarantees *)

Section Guarantees.

Variable W : Type.
Variable getText : list byte -> W -> Outcome value * W.
Variable gen : GenerateContentParameters -> W -> Outcome Completion * W.
Variable parse : jsstring -> Outcome value.
Variable cut : bool.

Local Abbreviation handle := (handler getText gen parse).
Local Abbreviation route := (post_analyze getText gen parse cut).
Local Abbreviation gate := (Multer.single cut upload (js "file")).

(** An upload the gate rejects is answered by the default error handler:
    the handler of the route does not run and no collaborator is called. *)
Lemma rejected_upload (req : Request) (st : St W) (err : error) :
  gate req = Thrown err ->
  route req st = (Returned (Express.finalhandler err), st) /\
  callsOf getText gen parse cut req (world st) = [].
Proof.
  intros H. split; [now apply route_rejected|].
  unfold callsOf. now erewrite route_rejected by exact H.
Qed.

(** C1. For a request whose PDF passed the upload gate and has text that is
    non-empty after trimming, when the remote call returns a string that
    [JSON.parse] turns into [v], the answer has status 200 and its body is
    the object whose only property, [analysis], is [v] itself; the two
    collaborators were called once each, in that order. *)
Theorem analysis_pass_through
        (req : Request) (st : St W) (f : File) (pd : value) (t : jsstring)
        (c : Completion) (v : value) (w1 w2 : W) :
  gate req = Returned (Some f) ->
  getText (buffer f) (world st) = (Returned pd, w1) ->
  getProp pd (js "text") = Returned (VString t) ->
  trim t <> [] ->
  gen (generateContentParameters (trim t)) w1 = (Returned c, w2) ->
  parse (c_text c) = Returned v ->
  exists resp,
    route req st = (Returned resp, requested st f (trim t) w2) /\
    res_status resp = 200%Z /\
    res_body resp = BodyJson (VObject [ (js "analysis", v) ]) /\
    bodyField (js "analysis") resp = Some v.
Proof.
  intros Hg Hx Ht Hne Hc Hp.
  exists (status_json 200 (VObject [ (js "analysis", v) ])).
  split; [|repeat split].
  erewrite route_handler by exact Hg.
  eapply handler_success; eauto using callTrim_string.
Qed.

(** C4. For a request whose PDF passed the upload gate and whose extracted
    text is empty after trimming, the answer has status 400 with the message
    that no readable text was found; extraction was the only call made, the
    remote model was not invoked. *)
Theorem no_readable_text
        (req : Request) (st : St W) (f : File) (pd : value) (t : jsstring) (w1 : W) :
  gate req = Returned (Some f) ->
  getText (buffer f) (world st) = (Returned pd, w1) ->
  getProp pd (js "text") = Returned (VString t) ->
  trim t = [] ->
  exists resp,
    route req st = (Returned resp, extracted st f w1) /\
    res_status resp = 400%Z /\
    bodyField (js "error") resp = Some (VString noReadableText) /\
    remoteInvoked (callsOf getText gen parse cut req (world st)) = false.
Proof.
  intros Hg Hx Ht He.
  assert (Hr : callTrim (or_else (VString t) (VString emptyString)) = Returned [])
    by (now rewrite callTrim_string, He).
  exists (clientError noReadableText). split; [|repeat split].
  - erewrite route_handler by exact Hg.
    eapply handler_no_text; eauto.
  - unfold callsOf. erewrite route_handler by exact Hg.
    erewrite handler_no_text by eauto. reflexivity.
Qed.


(** C10. When extraction resolves to an object whose [text] property is
    absent, [undefined] or [null], the handler goes on with the empty string
    and answers 400 with the no-readable-text message; it does not throw
    into the 500 branch, and the remote model is not invoked. *)
Theorem missing_text_is_400
        (req : Request) (st : St W) (f : File) (pd : value) (w1 : W) :
  gate req = Returned (Some f) ->
  getText (buffer f) (world st) = (Returned pd, w1) ->
  textMissing pd = true ->
  exists resp,
    route req st = (Returned resp, extracted st f w1) /\
    res_status resp = 400%Z /\
    bodyField (js "error") resp = Some (VString noReadableText) /\
    remoteInvoked (callsOf getText gen parse cut req (world st)) = false.
Proof.
  intros Hg Hx Hm.
  destruct (getProp_textMissing pd Hm) as (txt & Ht & Hfalsy).
  pose proof (callTrim_falsy txt Hfalsy) as Hr.
  exists (clientError noReadableText). split; [|repeat split].
  - erewrite route_handler by exact Hg.
    eapply handler_no_text; eauto.
  - unfold callsOf. erewrite route_handler by exact Hg.
    erewrite handler_no_text by eauto. reflexivity.
Qed.

(** A non-empty trimmed text can only come from a string. *)
Lemma callTrim_inv (txt : value) (rt : jsstring) :
  callTrim (or_else txt (VString emptyString)) = Returned rt ->
  rt <> [] ->
  exists t, txt = VString t /\ rt = trim t.
Proof.
  intros H Hne. unfold or_else in H.
  destruct (truthy txt) eqn:Etr.
  - destruct txt; try discriminate.
    injection H as <-. eauto.
  - injection H as <-. now contradiction Hne.
Qed.

(** C5 (amended). When the remote call throws, or returns a string that
    [JSON.parse] rejects, the answer has status 500; its body has an [error]
    string, which is the message of the failure when that message is not
    empty and the fixed text [internalServerError] when it is; and the body
    has no [analysis] property. *)
Theorem remote_failure_is_500
        (req : Request) (st : St W) (f : File) (pd : value) (t : jsstring)
        (e : error) (w1 w2 : W) :
  gate req = Returned (Some f) ->
  getText (buffer f) (world st) = (Returned pd, w1) ->
  getProp pd (js "text") = Returned (VString t) ->
  trim t <> [] ->
  gen (generateContentParameters (trim t)) w1 = (Thrown e, w2) \/
  (exists c, gen (generateContentParameters (trim t)) w1 = (Returned c, w2) /\
             parse (c_text c) = Thrown e) ->
  exists resp,
    route req st = (Returned resp, requested st f (trim t) w2) /\
    res_status resp = 500%Z /\
    bodyField (js "error") resp
    = Some (VString (match e_message e with
                     | [] => internalServerError
                     | _ :: _ => e_message e
                     end)) /\
    bodyHasKey (js "analysis") resp = false.
Proof.
  intros Hg Hx Ht Hne Hfail.
  exists (serverError e). split; [|split; [reflexivity|split]].
  - erewrite route_handler by exact Hg.
    destruct Hfail as [Hc|(c & Hc & Hp)].
    + eapply handler_remote_fails; eauto using callTrim_string.
    + eapply handler_parse_fails; eauto using callTrim_string.
  - unfold serverError, bodyField, status_json. cbn [res_body lookup].
    rewrite str_eqb_refl. now rewrite message_or_default.
  - reflexivity.
Qed.

(** C9. Whenever the body of the answer has an [analysis] property, the
    upload was accepted, the extracted text was a string that is non-empty
    after trimming, the remote call returned, and [JSON.parse] accepted its
    text; the answer is then the 200 answer carrying the parsed value.  So no
    failure path produces an [analysis]. *)
Theorem analysis_implies_success (req : Request) (st st' : St W) (resp : Response) :
  route req st = (Returned resp, st') ->
  bodyHasKey (js "analysis") resp = true ->
  exists f pd t c v w1,
    gate req = Returned (Some f) /\
    getText (buffer f) (world st) = (Returned pd, w1) /\
    getProp pd (js "text") = Returned (VString t) /\
    trim t <> [] /\
    gen (generateContentParameters (trim t)) w1 = (Returned c, world st') /\
    parse (c_text c) = Returned v /\
    resp = status_json 200 (VObject [ (js "analysis", v) ]).
Proof.
  intros Hrun Hkey.
  destruct (gate req) as [[f|]|err] eqn:Hg.
  2:{ erewrite route_handler in Hrun by exact Hg.
      rewrite handler_no_file in Hrun. injection Hrun as <- _. discriminate. }
  2:{ erewrite route_rejected in Hrun by exact Hg.
      injection Hrun as <- _. discriminate. }
  erewrite route_handler in Hrun by exact Hg.
  pose proof (handler_cases getText gen parse f st) as H.
  destruct (getText (buffer f) (world st)) as [[pd|e] w1] eqn:Hx.
  2:{ rewrite H in Hrun. injection Hrun as <- _. discriminate. }
  destruct (getProp pd (js "text")) as [txt|e] eqn:Ht.
  2:{ rewrite H in Hrun. injection Hrun as <- _. discriminate. }
  destruct (callTrim (or_else txt (VString emptyString))) as [[|u rt]|e] eqn:Hr.
  1,3: rewrite H in Hrun; injection Hrun as <- _; discriminate.
  destruct (callTrim_inv _ Hr) as (t & -> & Et); [discriminate|].
  destruct (gen (generateContentParameters (u :: rt)) w1) as [[c|e] w2] eqn:Hc.
  2:{ rewrite H in Hrun. injection Hrun as <- _. discriminate. }
  destruct (parse (c_text c)) as [v|e] eqn:Hp.
  2:{ rewrite H in Hrun. injection Hrun as <- _. discriminate. }
  rewrite H in Hrun. injection Hrun as <- <-.
  exists f, pd, t, c, v, w1. rewrite <- Et.
  repeat split; auto. discriminate.
Qed.

(** The answer and the calls made depend on the world, not on the log. *)
Lemma handler_frame (f : File) (st : St W) :
  let run := handle (Some f) (mkSt (world st) []) in
  handle (Some f) st
  = (fst run, mkSt (world (snd run)) (calls st ++ calls (snd run))).
Proof.
  pose proof (handler_cases getText gen parse f st) as H.
  pose proof (handler_cases getText gen parse f (mkSt (world st) [])) as H0.
  cbn [world] in H0. cbv zeta.
  destruct (getText (buffer f) (world st)) as [[pd|e] w1].
  2:{ now rewrite H, H0. }
  destruct (getProp pd (js "text")) as [txt|e].
  2:{ now rewrite H, H0. }
  destruct (callTrim (or_else txt (VString emptyString))) as [[|u rt]|e].
  1,3: now rewrite H, H0.
  destruct (gen (generateContentParameters (u :: rt)) w1) as [[c|e] w2].
  2:{ now rewrite H, H0. }
  destruct (parse (c_text c)) as [v|e]; now rewrite H, H0.
Qed.

(** The calls of a run on an accepted file: extraction always; the remote
    call exactly when extraction gave a string that is non-empty after
    trimming. *)
Lemma handler_calls (f : File) (w : W) :
  let cs := calls (snd (handle (Some f) (mkSt w []))) in
  extractionInvoked cs = true /\
  (remoteInvoked cs = true <->
   exists pd t w1,
     getText (buffer f) w = (Returned pd, w1) /\
     getProp pd (js "text") = Returned (VString t) /\
     trim t <> []).
Proof.
  pose proof (handler_cases getText gen parse f (mkSt w [])) as H.
  cbn [world] in H. cbv zeta.
  destruct (getText (buffer f) w) as [[pd|e] w1].
  2:{ rewrite H. split; [reflexivity|]. split; [discriminate|].
      intros (? & ? & ? & E & _). discriminate. }
  destruct (getProp pd (js "text")) as [txt|e] eqn:Ht.
  2:{ rewrite H. split; [reflexivity|]. split; [discriminate|].
      intros (? & ? & ? & E & E' & _). injection E as <- _. congruence. }
  destruct (callTrim (or_else txt (VString emptyString))) as [[|u rt]|e] eqn:Hr.
  1,3: rewrite H; split; [reflexivity|]; split; [discriminate|];
       intros (pd' & t & ? & E & E' & Hne); injection E as <- _;
       assert (txt = VString t) by congruence; subst txt;
       rewrite callTrim_string in Hr; congruence.
  destruct (callTrim_inv _ Hr) as (t & -> & Et); [discriminate|].
  assert (Hyes : exists pd' t' w1',
             (Returned pd, w1) = (Returned pd', w1') /\
             getProp pd' (js "text") = Returned (VString t') /\ trim t' <> []).
  { exists pd, t, w1. repeat split; [exact Ht|]. rewrite <- Et. discriminate. }
  destruct (gen (generateContentParameters (u :: rt)) w1) as [[c|e] w2].
  2:{ rewrite H. split; [reflexivity|]. split; [intros _; exact Hyes|reflexivity]. }
  destruct (parse (c_text c)) as [v|e]; rewrite H;
    (split; [reflexivity|]; split; [intros _; exact Hyes|reflexivity]).
Qed.

Lemma deterministic_eq {X A : Type} (g : X -> W -> Outcome A * W)
      (x : X) (w w' : W) (o o' : Outcome A) (u u' : W) :
  deterministic g -> g x w = (o, u) -> g x w' = (o', u') -> o = o'.
Proof.
  intros Hd E E'. pose proof (Hd x w w') as H.
  now rewrite E, E' in H.
Qed.

(** With deterministic collaborators, two runs on the same bytes give the
    same answer and make the same calls, whatever world each starts in. *)
Lemma handler_deterministic (f f' : File) (w w' : W) :
  deterministic getText -> deterministic gen ->
  buffer f = buffer f' ->
  fst (handle (Some f) (mkSt w [])) = fst (handle (Some f') (mkSt w' [])) /\
  calls (snd (handle (Some f) (mkSt w []))) = calls (snd (handle (Some f') (mkSt w' []))).
Proof.
  intros Dx Dg Hb.
  pose proof (handler_cases getText gen parse f (mkSt w [])) as H.
  pose proof (handler_cases getText gen parse f' (mkSt w' [])) as H'.
  unfold extracted, requested in *. cbn [world calls] in *. rewrite <- Hb in H'.
  destruct (getText (buffer f) w) as [o1 w1] eqn:E.
  destruct (getText (buffer f) w') as [o1' w1'] eqn:E'.
  rewrite <- (deterministic_eq _ _ _ Dx E E') in H'. clear E E'.
  destruct o1 as [pd|e].
  2:{ now rewrite H, H'. }
  destruct (getProp pd (js "text")) as [txt|e].
  2:{ now rewrite H, H'. }
  destruct (callTrim (or_else txt (VString emptyString))) as [[|u rt]|e].
  1,3: now rewrite H, H'.
  destruct (gen (generateContentParameters (u :: rt)) w1) as [o2 w2] eqn:E.
  destruct (gen (generateContentParameters (u :: rt)) w1') as [o2' w2'] eqn:E'.
  rewrite <- (deterministic_eq _ _ _ Dg E E') in H'. clear E E'.
  destruct o2 as [c|e].
  2:{ now rewrite H, H'. }
  destruct (parse (c_text c)) as [v|e]; now rewrite H, H'.
Qed.

(** C8 (amended). With deterministic collaborators, two requests that pass
    the upload gate with the same file bytes, served one after the other,
    get the same answer, and each makes the same calls [cs] itself, nothing
    being kept from the first for the second: the extraction call always,
    and the remote call exactly when the extracted text is a string that is
    non-empty after trimming. *)
Theorem repeated_request
        (r1 r2 : Request) (f1 f2 : File) (st : St W) :
  deterministic getText ->
  deterministic gen ->
  gate r1 = Returned (Some f1) ->
  gate r2 = Returned (Some f2) ->
  buffer f1 = buffer f2 ->
  exists resp st1 st2 cs,
    route r1 st = (Returned resp, st1) /\
    route r2 st1 = (Returned resp, st2) /\
    calls st1 = calls st ++ cs /\
    calls st2 = calls st1 ++ cs /\
    extractionInvoked cs = true /\
    (remoteInvoked cs = true <->
     exists pd t w1,
       getText (buffer f1) (world st) = (Returned pd, w1) /\
       getProp pd (js "text") = Returned (VString t) /\
       trim t <> []).
Proof.
  intros Dx Dg H1 H2 Hb.
  destruct (handler_calls f1 (world st)) as [Hx Hr]. cbv zeta in Hx, Hr.
  destruct (route_responds getText gen parse cut r1 st) as (resp & st1 & E1).
  pose proof E1 as E1'.
  erewrite route_handler in E1' by eassumption.
  rewrite handler_frame in E1'. cbv zeta in E1'.
  injection E1' as E1r E1s.
  destruct (@handler_deterministic f1 f2 (world st) (world st1) Dx Dg Hb) as [Er Ec].
  exists resp, st1,
    (mkSt (world (snd (handle (Some f2) (mkSt (world st1) []))))
          (calls st1 ++ calls (snd (handle (Some f1) (mkSt (world st) []))))),
    (calls (snd (handle (Some f1) (mkSt (world st) [])))).
  split; [exact E1|]. split.
  - erewrite route_handler by eassumption.
    rewrite handler_frame. cbv zeta.
    now rewrite <- Er, <- Ec, E1r.
  - split; [now rewrite <- E1s|]. split; [reflexivity|]. split; [exact Hx|exact Hr].
Qed.

(** Every remote call a request makes carries the schema constant. *)
Lemma callsOf_schema (req : Request) (w : W) :
  Forall (fun c => match schemaOfCall c with
                   | None => True
                   | Some s => s = resumeAnalysisSchema
                   end)
         (callsOf getText gen parse cut req w).
Proof.
  unfold callsOf, post_analyze.
  destruct (gate req) as [[f|]|err]; [|constructor|constructor].
  pose proof (handler_cases getText gen parse f (mkSt w [])) as H.
  cbn [world] in H.
  destruct (getText (buffer f) w) as [[pd|e] w1].
  2:{ rewrite H. now repeat constructor. }
  destruct (getProp pd (js "text")) as [txt|e].
  2:{ rewrite H. now repeat constructor. }
  destruct (callTrim (or_else txt (VString emptyString))) as [[|u rt]|e].
  1,3: rewrite H; now repeat constructor.
  destruct (gen (generateContentParameters (u :: rt)) w1) as [[c|e] w2].
  2:{ rewrite H. now repeat constructor. }
  destruct (parse (c_text c)) as [v|e]; rewrite H; now repeat constructor.
Qed.

(** A first uploaded file under [file] whose MIME type is not that of PDF:
    the filter's error reaches the default error handler, which answers 500
    with its HTML page; the handler does not run. *)
Lemma wrong_mime_is_500 (req : Request) (st : St W) (before rest : list Event)
      (p : FilePart) (fn : jsstring) :
  req_multipart req = true ->
  req_events req = before ++ OnFile p :: rest ->
  forallb passedOver before = true ->
  filenameOf p = Some fn ->
  part_fieldname p = Some (js "file") ->
  part_mimetype p <> js "application/pdf" ->
  route req st = (Returned (mkResponse 500 BodyHtml), st) /\
  callsOf getText gen parse cut req (world st) = [].
Proof.
  intros Hm Hf Hb Hfn Hn Ht.
  apply (@rejected_upload req st (Error (js "Only PDF files are allowed"))).
  eapply single_wrong_mime; eassumption.
Qed.

(** A first uploaded PDF under [file] of more than 10 MiB: the size error
    reaches the default error handler, which answers 500; the handler does
    not run. *)
Lemma too_large_is_500 (req : Request) (st : St W) (before rest : list Event)
      (p : FilePart) (fn : jsstring) :
  req_multipart req = true ->
  req_events req = before ++ OnFile p :: rest ->
  forallb passedOver before = true ->
  filenameOf p = Some fn ->
  part_fieldname p = Some (js "file") ->
  part_mimetype p = js "application/pdf" ->
  (10 * 1024 * 1024 < N.of_nat (List.length (part_content p)))%N ->
  route req st = (Returned (mkResponse 500 BodyHtml), st) /\
  callsOf getText gen parse cut req (world st) = [].
Proof.
  intros Hm Hf Hb Hfn Hn Ht Hs.
  apply (@rejected_upload req st (MulterError LIMIT_FILE_SIZE)).
  eapply single_too_large; eassumption.
Qed.

End Guarantees.

(** C2. The specification asks for status 400 on a file whose declared MIME
    type is not [application/pdf], with extraction not invoked.  On the upload
    [Stub.plainTextUpload] (a [text/plain] file under the field [file]) the
    route answers 500 with the framework's HTML error page, whatever the
    collaborators are; extraction is indeed not invoked. *)
Theorem plain_text_upload_answered_500 :
  forall (W : Type) getText gen parse cut (st : St W),
    post_analyze getText gen parse cut Stub.plainTextUpload st
    = (Returned (mkResponse 500 BodyHtml), st) /\
    extractionInvoked (callsOf getText gen parse cut Stub.plainTextUpload (world st)) = false.
Proof.
  intros W getText gen parse cut st.
  assert (Hmime : js "text/plain" <> js "application/pdf")
    by (vm_compute; discriminate).
  destruct (@wrong_mime_is_500 W getText gen parse cut Stub.plainTextUpload st [] []
              (mkFilePart (Some (js "file")) (Some (js "notes.txt")) (js "text/plain") Stub.cv)
              (js "notes.txt")
              eq_refl eq_refl eq_refl eq_refl eq_refl Hmime)
    as [Hr Hc].
  now rewrite Hr, Hc.
Qed.

(** C3. The specification asks for status 400 on a file of more than
    10 MiB, with extraction not invoked.  On the upload
    [Stub.oversizedUpload] (a PDF of 10 MiB and one byte) the route answers
    500 with the framework's HTML error page, whatever the collaborators are;
    extraction is indeed not invoked. *)
Theorem oversized_upload_answered_500 :
  forall (W : Type) getText gen parse cut (st : St W),
    post_analyze getText gen parse cut Stub.oversizedUpload st
    = (Returned (mkResponse 500 BodyHtml), st) /\
    extractionInvoked (callsOf getText gen parse cut Stub.oversizedUpload (world st)) = false.
Proof.
  intros W getText gen parse cut st.
  assert (Hbig : (10 * 1024 * 1024
                  < N.of_nat (List.length (repeat x00 (N.to_nat (10 * 1024 * 1024 + 1)))))%N).
  { rewrite repeat_length, N2Nat.id. reflexivity. }
  pose proof (@too_large_is_500 W getText gen parse cut Stub.oversizedUpload st [] []
                (mkFilePart (Some (js "file")) (Some (js "cv.pdf")) (js "application/pdf")
                   (repeat x00 (N.to_nat (10 * 1024 * 1024 + 1))))
                (js "cv.pdf")
                eq_refl eq_refl eq_refl eq_refl eq_refl eq_refl) as H.
  specialize (H Hbig). destruct H as [Hr Hc].
  rewrite Hr, Hc. split; reflexivity.
Qed.

(** C7. The schema is one constant: it declares exactly the fields
    [ats_score] (NUMBER), [structure] (STRING), [format] (STRING),
    [keywords] (ARRAY of STRING) and [suggestions] (ARRAY of STRING); its
    property ordering lists them in that order, [ats_score] first; the
    parameters built for any text carry it; and every remote call logged by
    any request, under any collaborators, carries it. *)
Theorem schema_is_constant :
  declaredFields resumeAnalysisSchema
  = [ (js "ats_score", Some (js "NUMBER"), None);
      (js "structure", Some (js "STRING"), None);
      (js "format", Some (js "STRING"), None);
      (js "keywords", Some (js "ARRAY"), Some (js "STRING"));
      (js "suggestions", Some (js "ARRAY"), Some (js "STRING")) ] /\
  propertyOrdering resumeAnalysisSchema
  = [ Some (js "ats_score"); Some (js "structure"); Some (js "format");
      Some (js "keywords"); Some (js "suggestions") ] /\
  (forall resumeText,
      responseSchema (config (generateContentParameters resumeText)) = resumeAnalysisSchema) /\
  (forall (W : Type) getText gen parse cut req (w : W),
      Forall (fun c => match schemaOfCall c with
                       | None => True
                       | Some s => s = resumeAnalysisSchema
                       end)
             (callsOf getText gen parse cut req w)).
Proof.
  split; [reflexivity|]. split; [reflexivity|]. split; [reflexivity|].
  intros. apply callsOf_schema.
Qed.

(** ** The route on concrete requests *)

Lemma stub_upload_accepted (cut : bool) :
  Multer.single cut upload (js "file") Stub.pdfUpload = Returned (Some Stub.reqFile).
Proof. destruct cut; reflexivity. Qed.

Lemma stub_getText_deterministic : deterministic Stub.getText.
Proof. intros x w w'. reflexivity. Qed.

Lemma stub_getTextScan_deterministic : deterministic Stub.getTextScan.
Proof. intros x w w'. reflexivity. Qed.

Lemma stub_generateContent_deterministic : deterministic Stub.generateContent.
Proof. intros x w w'. reflexivity. Qed.

(** The successful run on [Stub.pdfUpload]. *)
Lemma analysis_pass_through_witness :
  exists resp,
    post_analyze Stub.getText Stub.generateContent Stub.JSON_parse false
                 Stub.pdfUpload (mkSt 0 [])
    = (Returned resp, requested (mkSt 0 []) Stub.reqFile Stub.resumeText 2) /\
    res_status resp = 200%Z /\
    res_body resp = BodyJson (VObject [ (js "analysis", Stub.analysis) ]) /\
    bodyField (js "analysis") resp = Some Stub.analysis.
Proof.
  apply (@analysis_pass_through Stub.World Stub.getText Stub.generateContent
           Stub.JSON_parse false Stub.pdfUpload (mkSt 0 []) Stub.reqFile
           (VObject [ (js "text", VString (32 :: 10 :: js "Jane Doe, engineer" ++ [32])%N) ])
           (32 :: 10 :: js "Jane Doe, engineer" ++ [32])%N
           (mkCompletion Stub.answer) Stub.analysis 1 2);
    try reflexivity.
  vm_compute. discriminate.
Defined.

(** A scanned page: only white space is extracted. *)
Lemma no_readable_text_witness :
  exists resp,
    post_analyze Stub.getTextScan Stub.generateContent Stub.JSON_parse false
                 Stub.pdfUpload (mkSt 0 [])
    = (Returned resp, extracted (mkSt 0 []) Stub.reqFile 1) /\
    res_status resp = 400%Z /\
    bodyField (js "error") resp = Some (VString noReadableText) /\
    remoteInvoked (callsOf Stub.getTextScan Stub.generateContent Stub.JSON_parse false
                           Stub.pdfUpload 0) = false.
Proof.
  apply (@no_readable_text Stub.World Stub.getTextScan Stub.generateContent
           Stub.JSON_parse false Stub.pdfUpload (mkSt 0 []) Stub.reqFile
           (VObject [ (js "text", VString [32; 10; 12]%N) ]) [32; 10; 12]%N 1);
    reflexivity.
Defined.

(** The remote call rejects with a message. *)
Lemma remote_failure_is_500_witness :
  exists resp,
    post_analyze Stub.getText (Stub.generateContentFails (js "quota exceeded"))
                 Stub.JSON_parse false Stub.pdfUpload (mkSt 0 [])
    = (Returned resp, requested (mkSt 0 []) Stub.reqFile Stub.resumeText 2) /\
    res_status resp = 500%Z /\
    bodyField (js "error") resp = Some (VString (js "quota exceeded")) /\
    bodyHasKey (js "analysis") resp = false.
Proof.
  apply (@remote_failure_is_500 Stub.World Stub.getText
           (Stub.generateContentFails (js "quota exceeded"))
           Stub.JSON_parse false Stub.pdfUpload (mkSt 0 []) Stub.reqFile
           (VObject [ (js "text", VString (32 :: 10 :: js "Jane Doe, engineer" ++ [32])%N) ])
           (32 :: 10 :: js "Jane Doe, engineer" ++ [32])%N
           (Error (js "quota exceeded")) 1 2);
    try reflexivity.
  - vm_compute. discriminate.
  - left. reflexivity.
Defined.


(** Extraction resolves to an object without [text]. *)
Lemma missing_text_is_400_witness :
  exists resp,
    post_analyze Stub.getTextNoField Stub.generateContent Stub.JSON_parse false
                 Stub.pdfUpload (mkSt 0 [])
    = (Returned resp, extracted (mkSt 0 []) Stub.reqFile 1) /\
    res_status resp = 400%Z /\
    bodyField (js "error") resp = Some (VString noReadableText) /\
    remoteInvoked (callsOf Stub.getTextNoField Stub.generateContent Stub.JSON_parse false
                           Stub.pdfUpload 0) = false.
Proof.
  apply (@missing_text_is_400 Stub.World Stub.getTextNoField Stub.generateContent
           Stub.JSON_parse false Stub.pdfUpload (mkSt 0 []) Stub.reqFile
           (VObject [ (js "total", VNumber (S754_finite false 4503599627370496 (-52))) ]) 1);
    reflexivity.
Defined.

(** The successful run, read backwards from its answer. *)
Lemma analysis_implies_success_witness :
  exists f pd t c v w1,
    Multer.single false upload (js "file") Stub.pdfUpload = Returned (Some f) /\
    Stub.getText (buffer f) 0 = (Returned pd, w1) /\
    getProp pd (js "text") = Returned (VString t) /\
    trim t <> [] /\
    Stub.generateContent (generateContentParameters (trim t)) w1 = (Returned c, 2) /\
    Stub.JSON_parse (c_text c) = Returned v /\
    status_json 200 (VObject [ (js "analysis", Stub.analysis) ])
    = status_json 200 (VObject [ (js "analysis", v) ]).
Proof.
  apply (@analysis_implies_success Stub.World Stub.getText Stub.generateContent
           Stub.JSON_parse false Stub.pdfUpload (mkSt 0 [])
           (requested (mkSt 0 []) Stub.reqFile Stub.resumeText 2)
           (status_json 200 (VObject [ (js "analysis", Stub.analysis) ])));
    reflexivity.
Defined.

(** The same upload served twice. *)
Lemma repeated_request_witness :
  exists resp st1 st2 cs,
    post_analyze Stub.getText Stub.generateContent Stub.JSON_parse false
                 Stub.pdfUpload (mkSt 0 []) = (Returned resp, st1) /\
    post_analyze Stub.getText Stub.generateContent Stub.JSON_parse false
                 Stub.pdfUpload st1 = (Returned resp, st2) /\
    calls st1 = [] ++ cs /\
    calls st2 = calls st1 ++ cs /\
    extractionInvoked cs = true /\
    (remoteInvoked cs = true <->
     exists pd t w1,
       Stub.getText (buffer Stub.reqFile) 0 = (Returned pd, w1) /\
       getProp pd (js "text") = Returned (VString t) /\
       trim t <> []).
Proof.
  apply (@repeated_request Stub.World Stub.getText Stub.generateContent
           Stub.JSON_parse false Stub.pdfUpload Stub.pdfUpload
           Stub.reqFile Stub.reqFile (mkSt 0 [])
           stub_getText_deterministic stub_generateContent_deterministic
           (stub_upload_accepted false) (stub_upload_accepted false) eq_refl).
Defined.

(** C5 as the specification states it fails when the failure carries an
    empty message: the
    remote call throws an [Error] with the empty message, and the [error]
    string of the answer is the fixed fallback text, not the message of the
    failure. *)
Lemma relay_counterexample :
  let failure := Error emptyString in
  let run := post_analyze Stub.getText (Stub.generateContentFails emptyString)
                          Stub.JSON_parse false Stub.pdfUpload (mkSt 0 []) in
  Stub.generateContentFails emptyString (generateContentParameters Stub.resumeText) 1
  = (Thrown failure, 2) /\
  exists resp,
    run = (Returned resp, requested (mkSt 0 []) Stub.reqFile Stub.resumeText 2) /\
    res_status resp = 500%Z /\
    bodyField (js "error") resp = Some (VString internalServerError) /\
    bodyField (js "error") resp <> Some (VString (e_message failure)).
Proof.
  cbv zeta. split; [reflexivity|].
  eexists. split; [reflexivity|]. split; [reflexivity|]. split; [reflexivity|].
  vm_compute. discriminate.
Qed.


(** C8 as the specification states it fails on a scanned PDF: the same
    upload served twice,
    with deterministic collaborators, gets the same answer both
    times, but neither request invokes the remote call. *)
Lemma repeated_scan_counterexample :
  let serve := post_analyze Stub.getTextScan Stub.generateContent Stub.JSON_parse false in
  deterministic Stub.getTextScan /\
  deterministic Stub.generateContent /\
  exists resp st1 st2,
    serve Stub.pdfUpload (mkSt 0 []) = (Returned resp, st1) /\
    serve Stub.pdfUpload st1 = (Returned resp, st2) /\
    res_status resp = 400%Z /\
    calls st2 = [ GetText Stub.cv; GetText Stub.cv ] /\
    remoteInvoked (calls st2) = false.
Proof.
  cbv zeta.
  split; [exact stub_getTextScan_deterministic|].
  split; [exact stub_generateContent_deterministic|].
  do 3 eexists. split; [reflexivity|]. split; [reflexivity|].
  repeat split.
Qed.

(** ** More on trimming *)

Lemma trimStart_split (s : jsstring) :
  exists pre, s = pre ++ trimStart s /\ forallb isTrimmable pre = true.
Proof.
  induction s as [|c s (pre & E & Hpre)]; [now exists []|].
  simpl. destruct (isTrimmable c) eqn:Ec.
  - exists (c :: pre). simpl. rewrite Ec, Hpre. now rewrite <- E.
  - now exists [].
Qed.

Lemma trimEnd_split (s : jsstring) :
  exists post, s = trimEnd s ++ post /\ forallb isTrimmable post = true.
Proof.
  destruct (trimStart_split (rev s)) as (pre & E & Hpre).
  exists (rev pre). split.
  - unfold trimEnd. rewrite <- rev_app_distr, <- E. now rewrite rev_involutive.
  - now rewrite forallb_reversed.
Qed.

(** [trimStart] leaves alone a string that does not begin with white space. *)
Lemma trimStart_fixed (s : jsstring) :
  match s with [] => True | c :: _ => isTrimmable c = false end ->
  trimStart s = s.
Proof. destruct s as [|c s]; simpl; [reflexivity|]. now intros ->. Qed.

Lemma trimEnd_last (s : jsstring) :
  match rev (trimEnd s) with [] => True | c :: _ => isTrimmable c = false end.
Proof.
  unfold trimEnd. rewrite rev_involutive.
  destruct (trimStart (rev s)) as [|c r] eqn:E; [exact I|].
  exact (trimStart_head _ E).
Qed.

(** [trimEnd] keeps the first code unit of a string that does not begin with
    white space. *)
Lemma trimEnd_first (s : jsstring) :
  match s with [] => True | c :: _ => isTrimmable c = false end ->
  match trimEnd s with [] => s = [] | c :: _ => isTrimmable c = false end.
Proof.
  intros Hs. destruct (trimEnd_split s) as (post & E & Hpost).
  destruct (trimEnd s) as [|c r].
  - simpl in E. subst post. destruct s as [|c s]; [reflexivity|].
    simpl in Hpost. rewrite Hs in Hpost. discriminate.
  - rewrite E in Hs. exact Hs.
Qed.

Lemma trimStart_first (s : jsstring) :
  match trimStart s with [] => True | c :: _ => isTrimmable c = false end.
Proof.
  destruct (trimStart s) as [|c r] eqn:E; [exact I|].
  exact (trimStart_head _ E).
Qed.

Lemma trim_first (s : jsstring) :
  match trim s with [] => True | c :: _ => isTrimmable c = false end.
Proof.
  pose proof (trimEnd_first (trimStart s) (trimStart_first s)) as H.
  unfold trim. now destruct (trimEnd (trimStart s)).
Qed.

(** X14. [trim] cuts white space off both ends and nothing else: the string
    is a run of white space, then the trimmed string, then a run of white
    space, and the trimmed string neither begins nor ends with white space. *)
Theorem trim_specification (s : jsstring) :
  exists pre post,
    s = pre ++ trim s ++ post /\
    forallb isTrimmable pre = true /\
    forallb isTrimmable post = true /\
    match trim s with [] => True | c :: _ => isTrimmable c = false end /\
    match rev (trim s) with [] => True | c :: _ => isTrimmable c = false end.
Proof.
  destruct (trimStart_split s) as (pre & E & Hpre).
  destruct (trimEnd_split (trimStart s)) as (post & E' & Hpost).
  exists pre, post. split; [|split; [exact Hpre|split; [exact Hpost|split]]].
  - unfold trim. now rewrite <- E'.
  - apply trim_first.
  - apply trimEnd_last.
Qed.

(** X15. Trimming twice is trimming once. *)
Theorem trim_idempotent (s : jsstring) : trim (trim s) = trim s.
Proof.
  unfold trim at 1.
  rewrite (trimStart_fixed _ (trim_first s)).
  pose proof (trimEnd_last (trimStart s)) as Hlast. fold (trim s) in Hlast.
  unfold trimEnd at 1.
  rewrite (trimStart_fixed _ Hlast).
  apply rev_involutive.
Qed.

(** ** More on the upload gate *)

(** No error the gate raises carries a status. *)
Lemma accept_errors (cut : bool) (evs : list Event) (left : nat) (got : option File)
      (err : error) :
  accept cut upload (js "file") left got evs = Thrown err ->
  e_status err = None /\ e_statusCode err = None.
Proof.
  revert left got. induction evs as [|ev evs IH]; intros left got; cbn [accept].
  - intros H; discriminate H.
  - destruct ev as [p|fd|msg].
    + destruct (filenameOf p); [|apply IH].
      destruct (negb (underName (js "file") p)).
      { intros H; injection H as <-. now split. }
      destruct left as [|left'].
      { intros H; injection H as <-. now split. }
      simpl fileFilter.
      destruct (negb (str_eqb (part_mimetype p) (js "application/pdf"))).
      { intros H; injection H as <-. now split. }
      cbv zeta.
      destruct (tooLarge cut upload (N.of_nat (List.length (part_content p)))).
      { intros H; injection H as <-. now split. }
      apply IH.
    + destruct (field_name fd).
      2:{ intros H; injection H as <-. now split. }
      destruct (nameTruncated fd).
      { intros H; injection H as <-. now split. }
      destruct (valueTruncated fd).
      { intros H; injection H as <-. now split. }
      apply IH.
    + intros H; injection H as <-. now split.
Qed.

Lemma gate_error_status (cut : bool) (req : Request) (err : error) :
  Multer.single cut upload (js "file") req = Thrown err ->
  Express.finalhandler err = mkResponse 500 BodyHtml.
Proof.
  unfold Multer.single. destruct (req_multipart req); [|discriminate].
  intros H. apply accept_errors in H as [Hs Hc].
  unfold Express.finalhandler, Express.errorStatus. now rewrite Hs, Hc.
Qed.

Lemma single_wrong_field (cut : bool) (req : Request) (before rest : list Event)
      (p : FilePart) (fn : jsstring) :
  req_multipart req = true ->
  req_events req = before ++ OnFile p :: rest ->
  forallb passedOver before = true ->
  filenameOf p = Some fn ->
  part_fieldname p <> Some (js "file") ->
  Multer.single cut upload (js "file") req = Thrown (MulterError LIMIT_UNEXPECTED_FILE).
Proof.
  intros Hm Hf Hb Hfn Hn. unfold Multer.single. rewrite Hm, Hf.
  erewrite accept_passedOver by exact Hb.
  cbn [accept]. rewrite Hfn.
  assert (Hu : underName (js "file") p = false).
  { unfold underName. destruct (part_fieldname p) as [n|]; [|reflexivity].
    apply str_eqb_neq. intros ->. now apply Hn. }
  now rewrite Hu.
Qed.

(** More uploaded files than are left to take end the upload with an error. *)
Lemma accept_too_many (cut : bool) (evs : list Event) (left : nat) (got : option File) :
  left < List.length (filter isNamedFile evs) ->
  exists err, accept cut upload (js "file") left got evs = Thrown err.
Proof.
  revert left got. induction evs as [|ev evs IH]; intros left got.
  - cbn [filter List.length]. intros H. inversion H.
  - destruct ev as [p|fd|msg]; cbn [filter accept]; unfold isNamedFile at 1.
    + destruct (filenameOf p); [|apply IH].
      cbn [List.length]. intros H.
      destruct (negb (underName (js "file") p)); [eauto|].
      destruct left as [|left']; [eauto|].
      simpl fileFilter.
      destruct (negb (str_eqb (part_mimetype p) (js "application/pdf"))); [eauto|].
      cbv zeta.
      destruct (tooLarge cut upload (N.of_nat (List.length (part_content p)))); [eauto|].
      apply IH. lia.
    + intros H. destruct (field_name fd); [|eauto].
      destruct (nameTruncated fd); [eauto|].
      destruct (valueTruncated fd); [eauto|].
      now apply IH.
    + eauto.
Qed.

Lemma single_second_file (cut : bool) (req : Request) :
  req_multipart req = true ->
  2 <= List.length (filter isNamedFile (req_events req)) ->
  exists err, Multer.single cut upload (js "file") req = Thrown err.
Proof.
  intros Hm Hf. unfold Multer.single. rewrite Hm.
  apply accept_too_many. lia.
Qed.

(** X1. Whatever the upload middleware hands to the handler as [req.file]
    was the only uploaded file of a multipart body: a file part with a
    filename, sent under the field [file], whose MIME type as the parser
    reports it is [application/pdf]; everything before and after it in the
    body was passed over (text fields, file inputs left empty).  Its buffer
    is the content of that part, its size is the length of the buffer and
    is at most 10 MiB. *)
Theorem accepted_file_invariant (cut : bool) (req : Request) (f : File) :
  Multer.single cut upload (js "file") req = Returned (Some f) ->
  req_multipart req = true /\
  (exists before p after,
      req_events req = before ++ OnFile p :: after /\
      forallb passedOver before = true /\
      forallb passedOver after = true /\
      part_fieldname p = Some (js "file") /\
      filenameOf p = Some (originalname f) /\
      part_mimetype p = js "application/pdf" /\
      buffer f = part_content p) /\
  fieldname f = js "file" /\
  mimetype f = js "application/pdf" /\
  size f = N.of_nat (List.length (buffer f)) /\
  (size f <= 10 * 1024 * 1024)%N.
Proof.
  intros H.
  destruct (single_Some_inv _ _ H)
    as (Hm & before & p & fn & after & Hf & Hb & Ha & Hfn & Hn & Ht & Hs & ->).
  cbn [fieldname originalname mimetype buffer size].
  split; [exact Hm|]. split.
  - exists before, p, after. repeat split; auto.
  - repeat split; auto.
Qed.

(** A PDF in [file], between a text field and two file inputs left empty. *)
Lemma accepted_file_invariant_witness :
  req_multipart Stub.pdfAmongOthers = true /\
  (exists before p after,
      req_events Stub.pdfAmongOthers = before ++ OnFile p :: after /\
      forallb passedOver before = true /\
      forallb passedOver after = true /\
      part_fieldname p = Some (js "file") /\
      filenameOf p = Some (originalname Stub.reqFile) /\
      part_mimetype p = js "application/pdf" /\
      buffer Stub.reqFile = part_content p) /\
  fieldname Stub.reqFile = js "file" /\
  mimetype Stub.reqFile = js "application/pdf" /\
  size Stub.reqFile = N.of_nat (List.length (buffer Stub.reqFile)) /\
  (size Stub.reqFile <= 10 * 1024 * 1024)%N.
Proof.
  apply (@accepted_file_invariant false Stub.pdfAmongOthers Stub.reqFile).
  reflexivity.
Defined.

(** File inputs left empty do not count as files, wherever they stand. *)
Example empty_inputs_are_skipped (cut : bool) :
  Multer.single cut upload (js "file")
    (mkRequest true [ OnFile (Stub.emptyInput "photo"); OnFile Stub.pdfPart;
                      OnFile (Stub.emptyInput "file") ])
  = Returned (Some Stub.reqFile).
Proof. destruct cut; reflexivity. Qed.

Example empty_file_input_is_no_file (cut : bool) :
  Multer.single cut upload (js "file") Stub.noFileChosen = Returned None.
Proof. reflexivity. Qed.

Example long_field_aborts (cut : bool) :
  Multer.single cut upload (js "file") Stub.longFieldForm
  = Thrown (MulterError LIMIT_FIELD_VALUE).
Proof. reflexivity. Qed.

Example broken_body_aborts (cut : bool) :
  Multer.single cut upload (js "file") Stub.brokenForm
  = Thrown (Error (js "Unexpected end of form")).
Proof. reflexivity. Qed.

(** ** More on the route *)

Section Coverage.

Variable W : Type.
Variable getText : list byte -> W -> Outcome value * W.
Variable gen : GenerateContentParameters -> W -> Outcome Completion * W.
Variable parse : jsstring -> Outcome value.
Variable cut : bool.

Local Abbreviation handle := (handler getText gen parse).
Local Abbreviation route := (post_analyze getText gen parse cut).
Local Abbreviation gate := (Multer.single cut upload (js "file")).
Local Abbreviation callsFor := (callsOf getText gen parse cut).

Lemma callsOf_handler (req : Request) (w : W) (file : option File) :
  gate req = Returned file ->
  callsFor req w = calls (snd (handle file (mkSt w []))).
Proof. intros H. unfold callsOf. now erewrite route_handler by exact H. Qed.

Lemma callsOf_rejected (req : Request) (w : W) (err : error) :
  gate req = Thrown err -> callsFor req w = [].
Proof. intros H. unfold callsOf. now erewrite route_rejected by exact H. Qed.

(** Every run of the route, with the answer it gives and the calls it makes. *)
Lemma run_shapes (req : Request) (st : St W) :
  exists resp st',
    route req st = (Returned resp, st') /\
    ((resp = mkResponse 500 BodyHtml /\ callsFor req (world st) = [] /\ st' = st
      /\ exists err, gate req = Thrown err)
     \/ (resp = clientError noFileUploaded /\ callsFor req (world st) = [] /\ st' = st
         /\ gate req = Returned None)
     \/ exists f,
         gate req = Returned (Some f) /\
         (((exists e, resp = serverError e) /\
           callsFor req (world st) = [ GetText (buffer f) ])
          \/ (resp = clientError noReadableText /\
              callsFor req (world st) = [ GetText (buffer f) ])
          \/ exists pd t w1,
              getText (buffer f) (world st) = (Returned pd, w1) /\
              getProp pd (js "text") = Returned (VString t) /\
              trim t <> [] /\
              callsFor req (world st)
              = [ GetText (buffer f);
                  GenerateContent (generateContentParameters (trim t)) ] /\
              ((exists e, resp = serverError e) \/
               exists v, resp = status_json 200 (VObject [ (js "analysis", v) ])))).
Proof.
  destruct (gate req) as [[f|]|err] eqn:Hg.
  - erewrite route_handler by exact Hg.
    erewrite callsOf_handler by exact Hg.
    pose proof (handler_cases getText gen parse f st) as H.
    pose proof (handler_cases getText gen parse f (mkSt (world st) [])) as H0.
    cbn [world] in H0.
    destruct (getText (buffer f) (world st)) as [[pd|e] w1] eqn:Hx.
    2:{ rewrite H, H0. do 2 eexists. split; [reflexivity|].
        right; right. exists f. split; [reflexivity|]. left. split; [eauto|reflexivity]. }
    destruct (getProp pd (js "text")) as [txt|e] eqn:Ht.
    2:{ rewrite H, H0. do 2 eexists. split; [reflexivity|].
        right; right. exists f. split; [reflexivity|]. left. split; [eauto|reflexivity]. }
    destruct (callTrim (or_else txt (VString emptyString))) as [[|u rt]|e] eqn:Hr.
    3:{ rewrite H, H0. do 2 eexists. split; [reflexivity|].
        right; right. exists f. split; [reflexivity|]. left. split; [eauto|reflexivity]. }
    { rewrite H, H0. do 2 eexists. split; [reflexivity|].
      right; right. exists f. split; [reflexivity|]. right; left. split; reflexivity. }
    destruct (callTrim_inv _ Hr) as (t & -> & Et); [discriminate|].
    assert (Hne : trim t <> []) by (rewrite <- Et; discriminate).
    destruct (gen (generateContentParameters (u :: rt)) w1) as [[c|e] w2].
    2:{ rewrite H, H0. do 2 eexists. split; [reflexivity|].
        right; right. exists f. split; [reflexivity|]. right; right.
        exists pd, t, w1. rewrite <- Et.
        split; [exact Hx|]. split; [exact Ht|]. split; [discriminate|].
        split; [reflexivity|]. left. eauto. }
    destruct (parse (c_text c)) as [v|e]; rewrite H, H0;
      (do 2 eexists; split; [reflexivity|];
       right; right; exists f; split; [reflexivity|]; right; right;
       exists pd, t, w1; rewrite <- Et;
       split; [exact Hx|]; split; [exact Ht|]; split; [discriminate|];
       split; [reflexivity|]; eauto).
  - erewrite route_handler by exact Hg. erewrite callsOf_handler by exact Hg.
    rewrite !handler_no_file. do 2 eexists. split; [reflexivity|].
    right; left. repeat split.
  - erewrite route_rejected by exact Hg. erewrite callsOf_rejected by exact Hg.
    erewrite gate_error_status by exact Hg. do 2 eexists. split; [reflexivity|].
    left. repeat split. eauto.
Qed.

(** X2. Every upload the gate turns down is answered with status 500 and
    the framework's HTML error page; the handler does not run, no
    collaborator is called, and the state is left as it was. *)
Theorem any_rejection_is_500 (req : Request) (st : St W) (err : error) :
  gate req = Thrown err ->
  route req st = (Returned (mkResponse 500 BodyHtml), st) /\
  callsFor req (world st) = [].
Proof.
  intros Hg. split.
  - erewrite route_rejected by exact Hg. now erewrite gate_error_status by exact Hg.
  - now erewrite callsOf_rejected by exact Hg.
Qed.

(** X3. A multipart body whose first uploaded file (the first file part
    with a filename, after text fields and file inputs left empty) comes
    under a field other than [file] is turned down as an unexpected field
    and answered with status 500; no collaborator is called. *)
Theorem wrong_field_is_500 (req : Request) (st : St W) (before rest : list Event)
        (p : FilePart) (fn : jsstring) :
  req_multipart req = true ->
  req_events req = before ++ OnFile p :: rest ->
  forallb passedOver before = true ->
  filenameOf p = Some fn ->
  part_fieldname p <> Some (js "file") ->
  route req st = (Returned (mkResponse 500 BodyHtml), st) /\
  callsFor req (world st) = [].
Proof.
  intros Hm Hf Hb Hfn Hn.
  pose proof (@single_wrong_field cut req before rest p fn Hm Hf Hb Hfn Hn) as Hg. split.
  - now erewrite route_rejected by exact Hg.
  - now erewrite callsOf_rejected by exact Hg.
Qed.

(** X4. A multipart body with two or more uploaded files (file parts with a
    filename) is always turned down and answered with status 500, whatever
    the files are and wherever they stand in the body; no collaborator is
    called. *)
Theorem second_file_is_500 (req : Request) (st : St W) :
  req_multipart req = true ->
  2 <= List.length (filter isNamedFile (req_events req)) ->
  route req st = (Returned (mkResponse 500 BodyHtml), st) /\
  callsFor req (world st) = [].
Proof.
  intros Hm Hf.
  destruct (@single_second_file cut req Hm Hf) as (err & Hg). split.
  - erewrite route_rejected by exact Hg. now erewrite gate_error_status by exact Hg.
  - now erewrite callsOf_rejected by exact Hg.
Qed.

(** X5. A request whose content type is not multipart is answered with
    status 400 and the no-file message, whatever its body holds; no
    collaborator is called. *)
Theorem not_multipart_is_400 (req : Request) (st : St W) :
  req_multipart req = false ->
  route req st = (Returned (clientError noFileUploaded), st) /\
  callsFor req (world st) = [].
Proof.
  intros Hm. pose proof (single_not_multipart cut req Hm) as Hg. split.
  - now erewrite route_handler by exact Hg.
  - now erewrite callsOf_handler by exact Hg.
Qed.



(** X7. When the extraction collaborator throws, the answer has status 500;
    its [error] string is the message of the failure, or the fixed fallback
    text when that message is empty; the body has no [analysis]; the remote
    model is not called. *)
Theorem extraction_failure_is_500
        (req : Request) (st : St W) (f : File) (e : error) (w1 : W) :
  gate req = Returned (Some f) ->
  getText (buffer f) (world st) = (Thrown e, w1) ->
  exists resp,
    route req st = (Returned resp, extracted st f w1) /\
    res_status resp = 500%Z /\
    bodyField (js "error") resp
    = Some (VString (match e_message e with
                     | [] => internalServerError
                     | _ :: _ => e_message e
                     end)) /\
    bodyHasKey (js "analysis") resp = false /\
    remoteInvoked (callsFor req (world st)) = false.
Proof.
  intros Hg Hx. exists (serverError e).
  split; [|split; [reflexivity|split; [|split; [reflexivity|]]]].
  - erewrite route_handler by exact Hg. now apply handler_extraction_fails.
  - unfold serverError, bodyField, status_json. cbn [res_body lookup].
    rewrite str_eqb_refl. now rewrite message_or_default.
  - erewrite callsOf_handler by exact Hg.
    erewrite handler_extraction_fails by exact Hx. reflexivity.
Qed.

(** X8. When extraction resolves to [null] or [undefined], reading its
    [text] throws a TypeError: the answer is the 500 answer for that error,
    and the remote model is not called. *)
Theorem null_result_is_500
        (req : Request) (st : St W) (f : File) (pd : value) (w1 : W) :
  gate req = Returned (Some f) ->
  getText (buffer f) (world st) = (Returned pd, w1) ->
  pd = VNull \/ pd = VUndefined ->
  exists e,
    route req st = (Returned (serverError e), extracted st f w1) /\
    e_name e = js "TypeError" /\
    res_status (serverError e) = 500%Z /\
    remoteInvoked (callsFor req (world st)) = false.
Proof.
  intros Hg Hx Hpd.
  assert (Ht : exists e, getProp pd (js "text") = Thrown e /\ e_name e = js "TypeError")
    by (destruct Hpd as [->| ->]; eexists; split; reflexivity).
  destruct Ht as (e & Ht & Hn). exists e.
  split; [|split; [exact Hn|split; [reflexivity|]]].
  - erewrite route_handler by exact Hg. eapply handler_text_unreadable; eauto.
  - erewrite callsOf_handler by exact Hg.
    erewrite handler_text_unreadable by eauto. reflexivity.
Qed.

(** X9. When the extracted [text] is truthy but not a string (a number, an
    array, an object, [true]), calling [trim] on it throws a TypeError: the
    answer is the 500 answer for that error, and the remote model is not
    called. *)
Theorem non_string_text_is_500
        (req : Request) (st : St W) (f : File) (pd txt : value) (w1 : W) :
  gate req = Returned (Some f) ->
  getText (buffer f) (world st) = (Returned pd, w1) ->
  getProp pd (js "text") = Returned txt ->
  truthy txt = true ->
  (forall s, txt <> VString s) ->
  exists e,
    route req st = (Returned (serverError e), extracted st f w1) /\
    e_name e = js "TypeError" /\
    res_status (serverError e) = 500%Z /\
    remoteInvoked (callsFor req (world st)) = false.
Proof.
  intros Hg Hx Ht Htr Hns.
  assert (Hr : exists e, callTrim (or_else txt (VString emptyString)) = Thrown e
                         /\ e_name e = js "TypeError").
  { unfold or_else. rewrite Htr.
    destruct txt; try discriminate; try (eexists; split; reflexivity).
    now contradiction (Hns s). }
  destruct Hr as (e & Hr & Hn). exists e.
  split; [|split; [exact Hn|split; [reflexivity|]]].
  - erewrite route_handler by exact Hg. eapply handler_trim_fails; eauto.
  - erewrite callsOf_handler by exact Hg.
    erewrite handler_trim_fails by eauto. reflexivity.
Qed.

(** X10. When the extracted [text] is falsy, whatever its type (the empty
    string, [0], [NaN], [false], [null], [undefined]), the answer is the 400
    no-readable-text answer, and the remote model is not called. *)
Theorem falsy_text_is_400
        (req : Request) (st : St W) (f : File) (pd txt : value) (w1 : W) :
  gate req = Returned (Some f) ->
  getText (buffer f) (world st) = (Returned pd, w1) ->
  getProp pd (js "text") = Returned txt ->
  truthy txt = false ->
  route req st = (Returned (clientError noReadableText), extracted st f w1) /\
  remoteInvoked (callsFor req (world st)) = false.
Proof.
  intros Hg Hx Ht Hfalsy.
  pose proof (callTrim_falsy txt Hfalsy) as Hr. split.
  - erewrite route_handler by exact Hg. eapply handler_no_text; eauto.
  - erewrite callsOf_handler by exact Hg.
    erewrite handler_no_text by eauto. reflexivity.
Qed.

(** X11. For an extracted text that is a string, the answer is the 400
    no-readable-text answer exactly when every code unit of the text is
    white space. *)
Theorem blank_text_iff_400
        (req : Request) (st : St W) (f : File) (pd : value) (t : jsstring) (w1 : W) :
  gate req = Returned (Some f) ->
  getText (buffer f) (world st) = (Returned pd, w1) ->
  getProp pd (js "text") = Returned (VString t) ->
  (fst (route req st) = Returned (clientError noReadableText)
   <-> forallb isTrimmable t = true).
Proof.
  intros Hg Hx Ht.
  erewrite route_handler by exact Hg.
  pose proof (handler_cases getText gen parse f st) as H.
  rewrite Hx, Ht, callTrim_string in H.
  rewrite <- trim_nil.
  destruct (trim t) as [|u rt].
  - rewrite H. split; reflexivity.
  - split; [|discriminate]. intros E. exfalso.
    destruct (gen (generateContentParameters (u :: rt)) w1) as [[c|e] w2].
    2:{ rewrite H in E. discriminate E. }
    destruct (parse (c_text c)) as [v|e]; rewrite H in E; discriminate E.
Qed.

(** X12. The route answers every request, and with one of five answers:
    the framework's 500 page, the 400 no-file answer, the 400
    no-readable-text answer, a 500 answer for a caught error, or the 200
    answer carrying an analysis.  No exception leaves the handler. *)
Theorem every_answer (req : Request) (st : St W) :
  exists resp st',
    route req st = (Returned resp, st') /\
    (resp = mkResponse 500 BodyHtml \/
     resp = clientError noFileUploaded \/
     resp = clientError noReadableText \/
     (exists e, resp = serverError e) \/
     (exists v, resp = status_json 200 (VObject [ (js "analysis", v) ]))).
Proof.
  destruct (run_shapes req st) as (resp & st' & Hrun & Hcases).
  exists resp, st'. split; [exact Hrun|].
  destruct Hcases as [(-> & _)|[(-> & _)|(f & _ & Hf)]]; [tauto|tauto|].
  destruct Hf as [(He & _)|[(-> & _)|(pd & t & w1 & _ & _ & _ & _ & [He|Hv])]];
    tauto.
Qed.

(** X13. A request costs at most one extraction call and at most one remote
    call, the extraction first: nothing is retried, and the remote model is
    never called without an extraction before it. *)
Theorem one_attempt_each (req : Request) (w : W) :
  callsFor req w = [] \/
  (exists b, callsFor req w = [ GetText b ]) \/
  (exists b p, callsFor req w = [ GetText b; GenerateContent p ]).
Proof.
  destruct (run_shapes req (mkSt w [])) as (resp & st' & _ & Hcases).
  cbn [world] in Hcases.
  destruct Hcases as [(_ & -> & _)|[(_ & -> & _)|(f & _ & Hf)]]; [tauto|tauto|].
  destruct Hf as [(_ & ->)|[(_ & ->)|(pd & t & w1 & _ & _ & _ & -> & _)]]; eauto.
Qed.

(** X16. Whenever the remote model is called, its parameters are the ones
    built from the trimmed text of the extraction result: the single user
    message holds that text and nothing else, the text is not empty, and the
    model name and the JSON response type are the fixed ones. *)
Theorem prompt_is_trimmed_text (req : Request) (w : W) (p : GenerateContentParameters) :
  In (GenerateContent p) (callsFor req w) ->
  exists f pd t w1,
    gate req = Returned (Some f) /\
    getText (buffer f) w = (Returned pd, w1) /\
    getProp pd (js "text") = Returned (VString t) /\
    trim t <> [] /\
    p = generateContentParameters (trim t) /\
    contents p = [ mkContent (js "user") [ mkPart (trim t) ] ] /\
    model p = js "gemini-2.5-flash" /\
    responseMimeType (config p) = js "application/json".
Proof.
  intros Hin.
  destruct (run_shapes req (mkSt w [])) as (resp & st' & _ & Hcases).
  cbn [world] in Hcases.
  destruct Hcases as [(_ & E & _)|[(_ & E & _)|(f & Hg & Hf)]];
    try (rewrite E in Hin; contradiction).
  destruct Hf as [(_ & E)|[(_ & E)|(pd & t & w1 & Hx & Ht & Hne & E & _)]];
    rewrite E in Hin; cbn [In] in Hin.
  1,2: destruct Hin as [Hin|[]]; discriminate Hin.
  destruct Hin as [Hin|[Hin|[]]]; [discriminate Hin|].
  injection Hin as <-.
  exists f, pd, t, w1. repeat split; auto.
Qed.

(** X17. What an answer tells about the calls made: a 400 answer never cost
    a remote call; a 200 answer cost exactly one extraction and one remote
    call; the framework's HTML page means no collaborator was called. *)
Theorem status_and_calls (req : Request) (st st' : St W) (resp : Response) :
  route req st = (Returned resp, st') ->
  (res_status resp = 400%Z -> remoteInvoked (callsFor req (world st)) = false) /\
  (res_status resp = 200%Z ->
   exists b p, callsFor req (world st) = [ GetText b; GenerateContent p ]) /\
  (res_body resp = BodyHtml -> callsFor req (world st) = []).
Proof.
  intros Hrun.
  destruct (run_shapes req st) as (resp' & st'' & Hrun' & Hcases).
  rewrite Hrun in Hrun'. injection Hrun' as <- <-.
  destruct Hcases as [(-> & E & _)|[(-> & E & _)|(f & _ & Hf)]].
  - rewrite E. repeat split; intros H; try discriminate H; reflexivity.
  - rewrite E. repeat split; intros H; try discriminate H; reflexivity.
  - destruct Hf as [((e & ->) & E)|[(-> & E)|(pd & t & w1 & _ & _ & _ & E & [(e & ->)|(v & ->)])]];
      rewrite E; repeat split; intros H; try discriminate H; eauto.
Qed.

End Coverage.

(** X18. The port is 3000 exactly when the environment variable is unset or
    empty; any non-empty value is taken as it is, as a string. *)
Theorem port_default (env_PORT : option jsstring) :
  PORT env_PORT
  = match env_PORT with
    | Some (c :: s) => VString (c :: s)
    | Some [] | None => VNumber (S754_finite false 6597069766656000 (-41))
    end.
Proof. destruct env_PORT as [[|c s]|]; reflexivity. Qed.

(** ** More runs on concrete requests *)

(** A PDF under the field [resume] is turned down. *)
Lemma any_rejection_is_500_witness :
  post_analyze Stub.getText Stub.generateContent Stub.JSON_parse false
               Stub.wrongFieldUpload (mkSt 0 [])
  = (Returned (mkResponse 500 BodyHtml), mkSt 0 []) /\
  callsOf Stub.getText Stub.generateContent Stub.JSON_parse false Stub.wrongFieldUpload 0 = [].
Proof.
  apply (@any_rejection_is_500 Stub.World Stub.getText Stub.generateContent
           Stub.JSON_parse false Stub.wrongFieldUpload (mkSt 0 [])
           (MulterError LIMIT_UNEXPECTED_FILE)).
  reflexivity.
Defined.

Lemma wrong_field_is_500_witness :
  post_analyze Stub.getText Stub.generateContent Stub.JSON_parse false
               Stub.wrongFieldUpload (mkSt 0 [])
  = (Returned (mkResponse 500 BodyHtml), mkSt 0 []) /\
  callsOf Stub.getText Stub.generateContent Stub.JSON_parse false Stub.wrongFieldUpload 0 = [].
Proof.
  apply (@wrong_field_is_500 Stub.World Stub.getText Stub.generateContent
           Stub.JSON_parse false Stub.wrongFieldUpload (mkSt 0 [])
           [ OnFile (Stub.emptyInput "file") ] [] Stub.resumePart (js "cv.pdf"));
    try reflexivity.
  vm_compute. discriminate.
Defined.

Lemma second_file_is_500_witness :
  post_analyze Stub.getText Stub.generateContent Stub.JSON_parse false
               Stub.twoFilesUpload (mkSt 0 [])
  = (Returned (mkResponse 500 BodyHtml), mkSt 0 []) /\
  callsOf Stub.getText Stub.generateContent Stub.JSON_parse false Stub.twoFilesUpload 0 = [].
Proof.
  apply (@second_file_is_500 Stub.World Stub.getText Stub.generateContent
           Stub.JSON_parse false Stub.twoFilesUpload (mkSt 0 []));
    [reflexivity|].
  vm_compute. constructor.
Defined.

Lemma not_multipart_is_400_witness :
  post_analyze Stub.getText Stub.generateContent Stub.JSON_parse false
               Stub.plainPost (mkSt 0 [])
  = (Returned (clientError noFileUploaded), mkSt 0 []) /\
  callsOf Stub.getText Stub.generateContent Stub.JSON_parse false Stub.plainPost 0 = [].
Proof.
  apply (@not_multipart_is_400 Stub.World Stub.getText Stub.generateContent
           Stub.JSON_parse false Stub.plainPost (mkSt 0 [])).
  reflexivity.
Defined.



Lemma extraction_failure_is_500_witness :
  exists resp,
    post_analyze Stub.getTextFails Stub.generateContent Stub.JSON_parse false
                 Stub.pdfUpload (mkSt 0 [])
    = (Returned resp, extracted (mkSt 0 []) Stub.reqFile 1) /\
    res_status resp = 500%Z /\
    bodyField (js "error") resp = Some (VString (js "Invalid PDF structure")) /\
    bodyHasKey (js "analysis") resp = false /\
    remoteInvoked (callsOf Stub.getTextFails Stub.generateContent Stub.JSON_parse false
                           Stub.pdfUpload 0) = false.
Proof.
  apply (@extraction_failure_is_500 Stub.World Stub.getTextFails Stub.generateContent
           Stub.JSON_parse false Stub.pdfUpload (mkSt 0 []) Stub.reqFile
           (Error (js "Invalid PDF structure")) 1);
    reflexivity.
Defined.

Lemma null_result_is_500_witness :
  exists e,
    post_analyze Stub.getTextNull Stub.generateContent Stub.JSON_parse false
                 Stub.pdfUpload (mkSt 0 [])
    = (Returned (serverError e), extracted (mkSt 0 []) Stub.reqFile 1) /\
    e_name e = js "TypeError" /\
    res_status (serverError e) = 500%Z /\
    remoteInvoked (callsOf Stub.getTextNull Stub.generateContent Stub.JSON_parse false
                           Stub.pdfUpload 0) = false.
Proof.
  apply (@null_result_is_500 Stub.World Stub.getTextNull Stub.generateContent
           Stub.JSON_parse false Stub.pdfUpload (mkSt 0 []) Stub.reqFile VNull 1);
    try reflexivity.
  left. reflexivity.
Defined.

Lemma non_string_text_is_500_witness :
  exists e,
    post_analyze Stub.getTextNumber Stub.generateContent Stub.JSON_parse false
                 Stub.pdfUpload (mkSt 0 [])
    = (Returned (serverError e), extracted (mkSt 0 []) Stub.reqFile 1) /\
    e_name e = js "TypeError" /\
    res_status (serverError e) = 500%Z /\
    remoteInvoked (callsOf Stub.getTextNumber Stub.generateContent Stub.JSON_parse false
                           Stub.pdfUpload 0) = false.
Proof.
  apply (@non_string_text_is_500 Stub.World Stub.getTextNumber Stub.generateContent
           Stub.JSON_parse false Stub.pdfUpload (mkSt 0 []) Stub.reqFile
           (VObject [ (js "text", VNumber (S754_finite false 6122080743456768 (-46))) ])
           (VNumber (S754_finite false 6122080743456768 (-46))) 1);
    try reflexivity.
  intros s. discriminate.
Defined.

Lemma falsy_text_is_400_witness :
  post_analyze Stub.getTextZero Stub.generateContent Stub.JSON_parse false
               Stub.pdfUpload (mkSt 0 [])
  = (Returned (clientError noReadableText), extracted (mkSt 0 []) Stub.reqFile 1) /\
  remoteInvoked (callsOf Stub.getTextZero Stub.generateContent Stub.JSON_parse false
                         Stub.pdfUpload 0) = false.
Proof.
  apply (@falsy_text_is_400 Stub.World Stub.getTextZero Stub.generateContent
           Stub.JSON_parse false Stub.pdfUpload (mkSt 0 []) Stub.reqFile
           (VObject [ (js "text", VNumber (S754_zero false)) ])
           (VNumber (S754_zero false)) 1);
    reflexivity.
Defined.

Lemma blank_text_iff_400_witness :
  fst (post_analyze Stub.getTextScan Stub.generateContent Stub.JSON_parse false
                    Stub.pdfUpload (mkSt 0 []))
  = Returned (clientError noReadableText)
  <-> forallb isTrimmable [32; 10; 12]%N = true.
Proof.
  apply (@blank_text_iff_400 Stub.World Stub.getTextScan Stub.generateContent
           Stub.JSON_parse false Stub.pdfUpload (mkSt 0 []) Stub.reqFile
           (VObject [ (js "text", VString [32; 10; 12]%N) ]) [32; 10; 12]%N 1);
    reflexivity.
Defined.

Lemma prompt_is_trimmed_text_witness :
  exists f pd t w1,
    Multer.single false upload (js "file") Stub.pdfUpload = Returned (Some f) /\
    Stub.getText (buffer f) 0 = (Returned pd, w1) /\
    getProp pd (js "text") = Returned (VString t) /\
    trim t <> [] /\
    generateContentParameters Stub.resumeText = generateContentParameters (trim t) /\
    contents (generateContentParameters Stub.resumeText)
    = [ mkContent (js "user") [ mkPart (trim t) ] ] /\
    model (generateContentParameters Stub.resumeText) = js "gemini-2.5-flash" /\
    responseMimeType (config (generateContentParameters Stub.resumeText))
    = js "application/json".
Proof.
  apply (@prompt_is_trimmed_text Stub.World Stub.getText Stub.generateContent
           Stub.JSON_parse false Stub.pdfUpload 0
           (generateContentParameters Stub.resumeText)).
  right. left. reflexivity.
Defined.

Lemma status_and_calls_witness :
  (200%Z = 400%Z ->
   remoteInvoked (callsOf Stub.getText Stub.generateContent Stub.JSON_parse false
                          Stub.pdfUpload 0) = false) /\
  (200%Z = 200%Z ->
   exists b p,
     callsOf Stub.getText Stub.generateContent Stub.JSON_parse false Stub.pdfUpload 0
     = [ GetText b; GenerateContent p ]) /\
  (BodyJson (VObject [ (js "analysis", Stub.analysis) ]) = BodyHtml ->
   callsOf Stub.getText Stub.generateContent Stub.JSON_parse false Stub.pdfUpload 0 = []).
Proof.
  apply (@status_and_calls Stub.World Stub.getText Stub.generateContent
           Stub.JSON_parse false Stub.pdfUpload (mkSt 0 [])
           (requested (mkSt 0 []) Stub.reqFile Stub.resumeText 2)
           (status_json 200 (VObject [ (js "analysis", Stub.analysis) ]))).
  reflexivity.
Defined.
